(** * Community forest mapping: compartment generator and sample plot generator

    A shallow embedding of [gis-service/src/compartment_generator.py] and
    [gis-service/src/sample_plot_generator.py].

    Conventions of the embedding:
    - Python floats are idealised as rationals ([Q]); comparisons are the
      exact ones.
    - shapely is an external collaborator: its operations are the fields of
      the class [Geometry].  An operation that the source calls inside a
      [try] block and that may raise returns an [option].
    - geopandas frames are lists of rows; reading and writing GeoJSON files
      is not modelled: [generate_compartments] returns the frame it hands to
      [to_file], [generate_sample_plots] receives the frame that [read_file]
      returned.
    - [random.random()] is an oracle [nat -> Q]: the value of the k-th call. *)

From Stdlib Require Import ZArith QArith Qabs Qround Qminmax Lqa Lia.
From Stdlib Require Import List String Ascii Bool.
From Stdlib Require Import Decimal DecimalNat DecimalString.
From Stdlib Require Import Sorted.
From Stdlib Require OrderedTypeEx.
Import ListNotations.

Open Scope string_scope.
Open Scope Q_scope.

(** ** Python values *)

Inductive exn : Type :=
| ValueError (msg : string)
| ZeroDivisionError (msg : string)
| TypeError (msg : string)
| Exception (msg : string).

Inductive Result (A : Type) : Type :=
| Ok (a : A)
| Raise (e : exn).
Arguments Ok {A} a.
Arguments Raise {A} e.

(** [str(e)]. *)
Definition exn_str (e : exn) : string :=
  match e with
  | ValueError msg | ZeroDivisionError msg | TypeError msg | Exception msg => msg
  end.

(** [try: ... except Exception as e: raise ValueError(f"{prefix}: {str(e)}")]. *)
Definition reraise_value_error {A} (prefix : string) (r : Result A) : Result A :=
  match r with
  | Ok a => Ok a
  | Raise e => Raise (ValueError (prefix ++ ": " ++ exn_str e))
  end.

Definition is_ok {A} (r : Result A) : bool :=
  match r with Ok _ => true | Raise _ => false end.

(** [x < y] and [x > y] on floats. *)
Definition Qltb (x y : Q) : bool := negb (Qle_bool y x).
Definition Qgtb (x y : Q) : bool := Qltb y x.

(** [str(n)] for a non-negative integer. *)
Definition str (n : nat) : string := NilEmpty.string_of_uint (Nat.to_uint n).

(** [f"{n:02d}"] for a non-negative integer: zero fill to width two. *)
Definition format_02d (n : nat) : string :=
  let s := str n in
  if (String.length s <? 2)%nat then "0" ++ s else s.

(** [round(x)] on a float: to the nearest integer, ties to the even one. *)
Definition py_round (x : Q) : Z :=
  let f := Qfloor x in
  match Qcompare (x - inject_Z f) (1 # 2) with
  | Lt => f
  | Gt => (f + 1)%Z
  | Eq => if Z.even f then f else (f + 1)%Z
  end.

(** [sum(xs)] and [np.mean(xs)]. *)
Definition Qsum (xs : list Q) : Q := fold_right Qplus 0 xs.
Definition np_mean (xs : list Q) : Q := Qsum xs / inject_Z (Z.of_nat (List.length xs)).

(** ** The geometry collaborator (shapely) *)

Class Geometry : Type := {
  Geom : Type;
  GeoJSON : Type;
  (** [shape(d)]; [None] when it raises. *)
  shape : GeoJSON -> option Geom;
  is_valid : Geom -> bool;
  area : Geom -> Q;
  (** [g.bounds] = (minx, miny, maxx, maxy). *)
  bounds : Geom -> Q * Q * Q * Q;
  (** [box(minx, miny, maxx, maxy)]. *)
  box : Q -> Q -> Q -> Q -> Geom;
  boundary : Geom -> Geom;
  (** [g.intersection(h)]; [None] when it raises. *)
  intersection : Geom -> Geom -> option Geom;
  (** [shapely.ops.split(g, line).geoms]; [None] when it raises. *)
  split : Geom -> Geom -> option (list Geom);
  (** [g.contains(Point(x, y))]. *)
  contains : Geom -> Q * Q -> bool
}.

(** ** compartment_generator.py *)

Module CompartmentGenerator.
Section WithGeometry.
Context {G : Geometry}.

(** A compartment is the tuple (polygon, compartment_id). *)
Definition Compartment : Type := Geom * string.

(** One row of the GeoDataFrame built by [_create_compartment_geodataframe]. *)
Record GdfRow : Type := {
  row_compartment_id : string;
  row_area : Q;
  row_geometry : Geom
}.

(** [_find_bisecting_line]: the boundary of a thin box through the middle of
    the bounding box, vertical first, horizontal second. *)
Definition _find_bisecting_line (polygon : Geom) (target_area : Q) : option Geom :=
  let '(minx, miny, maxx, maxy) := bounds polygon in
  let mid_x := (minx + maxx) / 2 in
  let line := boundary (box (mid_x - 0.0001) (miny - 1) (mid_x + 0.0001) (maxy + 1)) in
  match intersection polygon (box (minx - 1) (miny - 1) mid_x (maxy + 1)) with
  | None => None
  | Some left_ =>
    match intersection polygon (box mid_x (miny - 1) (maxx + 1) (maxy + 1)) with
    | None => None
    | Some right_ =>
      if Qgtb (area left_) 0 && Qgtb (area right_) 0 then Some line
      else
        let mid_y := (miny + maxy) / 2 in
        let line := boundary (box (minx - 1) (mid_y - 0.0001) (maxx + 1) (mid_y + 0.0001)) in
        match intersection polygon (box (minx - 1) mid_y (maxx + 1) (maxy + 1)) with
        | None => None
        | Some top =>
          match intersection polygon (box (minx - 1) (miny - 1) (maxx + 1) mid_y) with
          | None => None
          | Some bottom =>
            if Qgtb (area top) 0 && Qgtb (area bottom) 0 then Some line else None
          end
        end
    end
  end.

(** [_split_polygon]: the first two pieces of the split, or the polygon
    itself and [None]. *)
Definition _split_polygon (polygon line : Geom) : Geom * option Geom :=
  match split polygon line with
  | Some (g0 :: g1 :: _) => (g0, Some g1)
  | Some _ => (polygon, None)
  | None => (polygon, None)
  end.

(** The acceptance test of [_recursive_bisection]:
    [abs(polygon.area - target_area) < target_area * 0.1 or depth > 10]. *)
Definition small_enough (polygon : Geom) (target_area : Q) (depth : nat) : bool :=
  Qltb (Qabs (area polygon - target_area)) (target_area * 0.1) || (10 <? depth)%nat.

(** [compartments.append((polygon, f"C{len(compartments) + 1}"))]. *)
Definition append_compartment (compartments : list Compartment) (polygon : Geom)
  : list Compartment :=
  compartments ++ [(polygon, "C" ++ str (List.length compartments + 1))].

(** [_recursive_bisection].  The accumulator list is threaded through the
    calls.  [fuel] bounds the number of nested calls; [None] means the bound
    was hit. *)
Fixpoint _recursive_bisection_fuel (fuel : nat) (polygon : Geom) (num_compartments : Z)
    (target_area : Q) (compartments : list Compartment) (depth : nat)
  : option (list Compartment) :=
  match fuel with
  | O => None
  | S fuel' =>
    if (Z.of_nat (List.length compartments) >=? num_compartments)%Z then Some compartments
    else if small_enough polygon target_area depth then
      Some (append_compartment compartments polygon)
    else
      match _find_bisecting_line polygon target_area with
      | None => Some (append_compartment compartments polygon)
      | Some line =>
        let '(left_, right_) := _split_polygon polygon line in
        let after_left :=
          if Qgtb (area left_) 0 then
            _recursive_bisection_fuel fuel' left_ num_compartments target_area
                                      compartments (depth + 1)
          else Some compartments in
        match after_left with
        | None => None
        | Some compartments1 =>
          match right_ with
          | Some r =>
            if Qgtb (area r) 0 then
              _recursive_bisection_fuel fuel' r num_compartments target_area
                                        compartments1 (depth + 1)
            else Some compartments1
          | None => Some compartments1
          end
        end
      end
  end.

(** Twelve nested calls are enough from depth 0 (see [bisection_total]). *)
Definition _recursive_bisection (polygon : Geom) (num_compartments : Z) (target_area : Q)
  : list Compartment :=
  match _recursive_bisection_fuel 12 polygon num_compartments target_area [] 0 with
  | Some compartments => compartments
  | None => []
  end.

(** [_validate_compartments]: returns nothing; the value here is the list of
    compartment ids for which a warning is logged. *)
Definition _validate_compartments (compartments : list Compartment) (target_area : Q)
  : list string :=
  let areas := map (fun c => area (fst c)) compartments in
  let mean_area := np_mean areas in
  let tolerance := mean_area * 0.05 in
  map snd
    (filter (fun c => Qgtb (Qabs (area (fst c) - mean_area)) tolerance) compartments).

Definition _create_compartment_geodataframe (compartments : list Compartment)
  : list GdfRow :=
  map (fun c => {| row_compartment_id := snd c;
                   row_area := area (fst c);
                   row_geometry := fst c |}) compartments.

(** [generate_compartments]: every exception is turned into a [ValueError];
    the result is the frame written to the output file. *)
Definition generate_compartments (boundary_geometry : GeoJSON) (num_compartments : Z)
  : Result (list GdfRow) :=
  reraise_value_error "Failed to generate compartments"
    match shape boundary_geometry with
    | None => Raise (Exception "shape")
    | Some boundary_geom =>
      if negb (is_valid boundary_geom) then
        Raise (ValueError "Invalid boundary geometry")
      else
        let total_area := area boundary_geom in
        if (num_compartments =? 0)%Z then
          (* total_area / num_compartments *)
          Raise (ZeroDivisionError "float division by zero")
        else
          let target_area := total_area / inject_Z num_compartments in
          let compartments :=
            _recursive_bisection boundary_geom num_compartments target_area in
          let _warnings := _validate_compartments compartments target_area in
          Ok (_create_compartment_geodataframe compartments)
    end.

End WithGeometry.
End CompartmentGenerator.

(** ** sample_plot_generator.py *)

Module SamplePlotGenerator.
Section WithGeometry.
Context {G : Geometry}.

(** The value returned by the k-th call of [random.random()]. *)
Variable random_random : nat -> Q.

(** One row of the compartment frame: the [compartment_id] column may be
    absent ([row.get] then yields its default). *)
Record Row : Type := {
  row_compartment_id : option string;
  row_geometry : Geom
}.

(** A sample plot dictionary. *)
Record Plot : Type := {
  plot_id : string;
  compartment_id : string;
  geometry : Q * Q;
  latitude : Q;
  longitude : Q
}.

(** The mutable state: [self.plot_counter] and the number of calls made to
    [random.random()] so far. *)
Record Self : Type := {
  plot_counter : nat;
  random_calls : nat
}.

(** [self.plot_counter += 1; plot_id = f"SP-{self.plot_counter:02d}"]. *)
Definition next_plot_id (self : Self) : string * Self :=
  let counter := (plot_counter self + 1)%nat in
  ("SP-" ++ format_02d counter,
   {| plot_counter := counter; random_calls := random_calls self |}).

(** [random.uniform(a, b)], that is [a + (b - a) * random.random()]. *)
Definition random_uniform (a b : Q) (self : Self) : Q * Self :=
  (a + (b - a) * random_random (random_calls self),
   {| plot_counter := plot_counter self; random_calls := S (random_calls self) |}).

Definition make_plot (plot_id compartment_id : string) (x y : Q) : Plot :=
  {| plot_id := plot_id; compartment_id := compartment_id;
     geometry := (x, y); latitude := y; longitude := x |}.

(** [range(n)]. *)
Definition range (n : Z) : list Z := map Z.of_nat (seq 0 (Z.to_nat n)).

(** [len(plots) >= num_plots]. *)
Definition enough (plots : list Plot) (num_plots : Z) : bool :=
  (Z.of_nat (List.length plots) >=? num_plots)%Z.

Section Systematic.
Variables (compartment_geometry : Geom) (compartment_id : string) (num_plots : Z).
Variables (minx miny x_step y_step : Q).

(** The inner [for j in range(grid_size)] loop, with its [break]. *)
Fixpoint systematic_inner (js : list Z) (i : Z) (plots : list Plot) (self : Self)
  : list Plot * Self :=
  match js with
  | [] => (plots, self)
  | j :: js' =>
    if enough plots num_plots then (plots, self)
    else
      let x := minx + (inject_Z i + 0.5) * x_step in
      let y := miny + (inject_Z j + 0.5) * y_step in
      if contains compartment_geometry (x, y) then
        let '(plot_id, self') := next_plot_id self in
        systematic_inner js' i (plots ++ [make_plot plot_id compartment_id x y]) self'
      else systematic_inner js' i plots self
  end.

(** The outer [for i in range(grid_size)] loop, with its [break]. *)
Fixpoint systematic_outer (is_ : list Z) (grid_size : Z) (plots : list Plot) (self : Self)
  : list Plot * Self :=
  match is_ with
  | [] => (plots, self)
  | i :: is' =>
    let '(plots', self') := systematic_inner (range grid_size) i plots self in
    if enough plots' num_plots then (plots', self')
    else systematic_outer is' grid_size plots' self'
  end.

End Systematic.

(** [_generate_systematic_plots].  [int((num_plots ** 0.5) + 1)] is
    [floor(sqrt(num_plots)) + 1] for [num_plots >= 0]; for a negative
    [num_plots] the power is a complex number and [int] raises. *)
Definition _generate_systematic_plots (compartment_geometry : Geom)
    (compartment_id : string) (num_plots : Z) (self : Self)
  : Result (list Plot * Self) :=
  let '(minx, miny, maxx, maxy) := bounds compartment_geometry in
  if (num_plots <? 0)%Z then Raise (TypeError "int() argument")
  else
    let grid_size := (Z.sqrt num_plots + 1)%Z in
    let x_step := (maxx - minx) / inject_Z grid_size in
    let y_step := (maxy - miny) / inject_Z grid_size in
    Ok (systematic_outer compartment_geometry compartment_id num_plots
                         minx miny x_step y_step (range grid_size) grid_size [] self).

(** The [while len(plots) < num_plots and attempts < max_attempts] loop.
    [fuel] bounds the number of iterations; [None] means the bound was hit. *)
Fixpoint random_loop_fuel (fuel : nat) (compartment_geometry : Geom)
    (compartment_id : string) (num_plots : Z) (minx miny maxx maxy : Q)
    (max_attempts attempts : Z) (plots : list Plot) (self : Self)
  : option (list Plot * Self) :=
  if negb (enough plots num_plots) && (attempts <? max_attempts)%Z then
    match fuel with
    | O => None
    | S fuel' =>
      let '(x, self1) := random_uniform minx maxx self in
      let '(y, self2) := random_uniform miny maxy self1 in
      if contains compartment_geometry (x, y) then
        let '(plot_id, self3) := next_plot_id self2 in
        random_loop_fuel fuel' compartment_geometry compartment_id num_plots
                         minx miny maxx maxy max_attempts (attempts + 1)%Z
                         (plots ++ [make_plot plot_id compartment_id x y]) self3
      else
        random_loop_fuel fuel' compartment_geometry compartment_id num_plots
                         minx miny maxx maxy max_attempts (attempts + 1)%Z plots self2
    end
  else Some (plots, self).

(** [_generate_random_plots].  [max_attempts] iterations are enough (see
    [random_loop_total]). *)
Definition _generate_random_plots (compartment_geometry : Geom)
    (compartment_id : string) (num_plots : Z) (self : Self)
  : list Plot * Self :=
  let '(minx, miny, maxx, maxy) := bounds compartment_geometry in
  let max_attempts := (num_plots * 10)%Z in
  match random_loop_fuel (Z.to_nat max_attempts) compartment_geometry compartment_id
                         num_plots minx miny maxx maxy max_attempts 0 [] self with
  | Some r => r
  | None => ([], self)
  end.

(** [_generate_plots_for_compartment]: everything but "systematic" is random. *)
Definition _generate_plots_for_compartment (compartment_geometry : Geom)
    (compartment_id : string) (num_plots : Z) (distribution_method : string)
    (self : Self) : Result (list Plot * Self) :=
  if String.eqb distribution_method "systematic" then
    _generate_systematic_plots compartment_geometry compartment_id num_plots self
  else
    Ok (_generate_random_plots compartment_geometry compartment_id num_plots self).

(** The number of plots owed to a compartment:
    [max(min_plots_per_compartment, int(round(area_m2 * sampling_intensity / 10000)))]. *)
Definition planned_plots (area_m2 sampling_intensity : Q) (min_plots_per_compartment : Z)
  : Z :=
  Z.max min_plots_per_compartment (py_round (area_m2 * sampling_intensity / 10000)).

(** The body of [for idx, row in gdf_compartments.iterrows()]. *)
Fixpoint for_each_row (rows : list Row) (idx : nat) (sampling_intensity : Q)
    (min_plots_per_compartment : Z) (distribution_method : string)
    (sample_plots : list Plot) (self : Self) : Result (list Plot * Self) :=
  match rows with
  | [] => Ok (sample_plots, self)
  | row :: rows' =>
    let compartment_id :=
      match row_compartment_id row with
      | Some id => id
      | None => "C" ++ str (idx + 1)
      end in
    let geometry := row_geometry row in
    let area_m2 := area geometry in
    let num_plots := planned_plots area_m2 sampling_intensity min_plots_per_compartment in
    match _generate_plots_for_compartment geometry compartment_id num_plots
                                          distribution_method self with
    | Raise e => Raise e
    | Ok (plots, self') =>
      for_each_row rows' (S idx) sampling_intensity min_plots_per_compartment
                   distribution_method (sample_plots ++ plots) self'
    end
  end.

(** [gpd.GeoDataFrame(sample_plots, geometry='geometry', crs=...)]: a list
    without a dictionary gives a frame without columns, and the library
    raises a [ValueError] for the missing geometry column. *)
Definition GeoDataFrame (sample_plots : list Plot) : Result (list Plot) :=
  match sample_plots with
  | [] => Raise (ValueError "Unknown column geometry")
  | _ => Ok sample_plots
  end.

(** [generate_sample_plots] on the frame read from the compartment file:
    every exception is turned into a [ValueError]; the result is the frame
    of plots written to the output file. *)
Definition generate_sample_plots (gdf_compartments : list Row) (sampling_intensity : Q)
    (min_plots_per_compartment : Z) (distribution_method : string) (self : Self)
  : Result (list Plot * Self) :=
  reraise_value_error "Failed to generate sample plots"
    match gdf_compartments with
    | [] => Raise (ValueError "Compartment file is empty")
    | _ =>
      let self0 := {| plot_counter := 0; random_calls := random_calls self |} in
      match for_each_row gdf_compartments 0 sampling_intensity
                         min_plots_per_compartment distribution_method [] self0 with
      | Raise e => Raise e
      | Ok (sample_plots, self') =>
        match GeoDataFrame sample_plots with
        | Raise e => Raise e
        | Ok gdf_plots => Ok (gdf_plots, self')
        end
      end
    end.

End WithGeometry.
End SamplePlotGenerator.

(** ** compartment_generator.py: statistics *)

Module CompartmentStatistics.
Section WithGeometry.
Context {G : Geometry}.

(** [np.sqrt] on floats. *)
Variable np_sqrt : Q -> Q.

(** The dictionary returned by [get_compartment_statistics]. *)
Record Stats : Type := {
  num_compartments : nat;
  total_area : Q;
  mean_area : Q;
  min_area : Q;
  max_area : Q;
  std_area : Q;
  area_variance : Q
}.

(** [np.min(xs)] and [np.max(xs)]: a [ValueError] on an empty array. *)
Definition np_min (xs : list Q) : Result Q :=
  match xs with
  | [] => Raise (ValueError "zero-size array to reduction operation minimum which has no identity")
  | x :: xs' => Ok (fold_left Qmin xs' x)
  end.

Definition np_max (xs : list Q) : Result Q :=
  match xs with
  | [] => Raise (ValueError "zero-size array to reduction operation maximum which has no identity")
  | x :: xs' => Ok (fold_left Qmax xs' x)
  end.

(** [np.var(xs)], the mean of the squared deviations, and [np.std(xs)]. *)
Definition np_var (xs : list Q) : Q :=
  let m := np_mean xs in
  np_mean (map (fun x => (x - m) * (x - m)) xs).

Definition np_std (xs : list Q) : Q := np_sqrt (np_var xs).

(** [get_compartment_statistics] on the frame read from the compartment
    file; the areas are those of the geometry column. *)
Definition get_compartment_statistics (gdf : list CompartmentGenerator.GdfRow)
  : Result Stats :=
  reraise_value_error "Failed to calculate compartment statistics"
    (let areas := map (fun r => area (CompartmentGenerator.row_geometry r)) gdf in
     match np_min areas with
     | Raise e => Raise e
     | Ok min_a =>
       match np_max areas with
       | Raise e => Raise e
       | Ok max_a =>
         Ok {| num_compartments := List.length gdf;
               total_area := Qsum areas;
               mean_area := np_mean areas;
               min_area := min_a;
               max_area := max_a;
               std_area := np_std areas;
               area_variance := np_var areas |}
       end
     end).

End WithGeometry.
End CompartmentStatistics.

(** ** sample_plot_generator.py: statistics *)

Module SamplePlotStatistics.

(** The dictionary returned by [get_sample_plot_statistics];
    [plots_per_compartment] lists the keys in increasing order, as
    [groupby(...).size().to_dict()] does. *)
Record Stats : Type := {
  total_plots : nat;
  plots_per_compartment : list (string * nat);
  min_plots : nat;
  max_plots : nat;
  avg_plots : Q
}.

(** One more row for the group of [id]. *)
Fixpoint bump (id : string) (counts : list (string * nat)) : list (string * nat) :=
  match counts with
  | [] => [(id, 1%nat)]
  | (k, c) :: rest =>
    match String.compare id k with
    | Eq => (k, S c) :: rest
    | Lt => (id, 1%nat) :: (k, c) :: rest
    | Gt => (k, c) :: bump id rest
    end
  end.

(** [gdf.groupby('compartment_id').size().to_dict()]. *)
Definition groupby_size (ids : list string) : list (string * nat) :=
  fold_left (fun counts id => bump id counts) ids [].

(** [min(values)] and [max(values)] of a non-empty dictionary, else 0. *)
Definition min_or_zero (values : list nat) : nat :=
  match values with
  | [] => 0%nat
  | v :: vs => fold_left Nat.min vs v
  end.

Definition max_or_zero (values : list nat) : nat :=
  match values with
  | [] => 0%nat
  | v :: vs => fold_left Nat.max vs v
  end.

(** [gdf.groupby('compartment_id')] on the frame read from the plot file:
    a file without plots gives a frame without that column, and the lookup
    raises a [KeyError]. *)
Definition groupby_compartment_id (gdf : list SamplePlotGenerator.Plot)
  : Result (list string) :=
  match gdf with
  | [] => Raise (Exception "'compartment_id'")
  | _ => Ok (map SamplePlotGenerator.compartment_id gdf)
  end.

(** [get_sample_plot_statistics] on the frame read from the plot file;
    every exception is turned into a [ValueError]. *)
Definition get_sample_plot_statistics (gdf : list SamplePlotGenerator.Plot)
  : Result Stats :=
  reraise_value_error "Failed to calculate statistics"
    match groupby_compartment_id gdf with
    | Raise e => Raise e
    | Ok ids =>
      let compartment_stats := groupby_size ids in
      Ok {| total_plots := List.length gdf;
            plots_per_compartment := compartment_stats;
            min_plots := min_or_zero (map snd compartment_stats);
            max_plots := max_or_zero (map snd compartment_stats);
            avg_plots := match compartment_stats with
                         | [] => 0
                         | _ => inject_Z (Z.of_nat (List.length gdf))
                                / inject_Z (Z.of_nat (List.length compartment_stats))
                         end |}
    end.

End SamplePlotStatistics.

(** ** main.py: the two endpoints

    The request body is a JSON object, given by its keys.  A file is the
    frame written to it: the response carries the frame in place of the
    path, and reading a written file gives the frame back. *)

Module Main.
Section WithGeometry.
Context {G : Geometry}.
Variable np_sqrt : Q -> Q.
Variable random_random : nat -> Q.

(** [not boundary_geometry] on a value that is present. *)
Variable falsy : GeoJSON -> bool.

(** [gpd.read_file(path)] on a compartment file; [None] when it raises. *)
Variable read_file : string -> option (list SamplePlotGenerator.Row).

Inductive Response (A B : Type) : Type :=
| Success (analysisId : option string) (geometry : A) (statistics : B)
| Failure (status : Z) (error : string).
Arguments Success {A B} analysisId geometry statistics.
Arguments Failure {A B} status error.

Definition status {A B} (r : Response A B) : Z :=
  match r with
  | Success _ _ _ => 200
  | Failure st _ => st
  end.

(** [except ValueError as e: ... 400] and [except Exception as e: ... 500]. *)
Definition failure_of {A B} (e : exn) : Response A B :=
  match e with
  | ValueError msg => Failure 400 msg
  | _ => Failure 500 (exn_str e)
  end.

Record CompartmentRequest : Type := {
  boundaryGeometry : option GeoJSON;
  numCompartments : option Z;
  compartment_analysisId : option string
}.

(** [generate_compartments()], the handler of /api/compartments/generate. *)
Definition generate_compartments (data : CompartmentRequest)
  : Response (list CompartmentGenerator.GdfRow) CompartmentStatistics.Stats :=
  let num_compartments :=
    match numCompartments data with Some n => n | None => 4%Z end in
  match boundaryGeometry data with
  | None => Failure 400 "Missing boundaryGeometry parameter"
  | Some boundary_geometry =>
    if falsy boundary_geometry then Failure 400 "Missing boundaryGeometry parameter"
    else
      match CompartmentGenerator.generate_compartments boundary_geometry
                                                       num_compartments with
      | Raise e => failure_of e
      | Ok compartment_path =>
        match CompartmentStatistics.get_compartment_statistics np_sqrt
                compartment_path with
        | Raise e => failure_of e
        | Ok stats => Success (compartment_analysisId data) compartment_path stats
        end
      end
  end.

Record SamplePlotRequest : Type := {
  compartmentGeometryPath : option string;
  samplingIntensity : option Q;
  minPlotsPerCompartment : option Z;
  distributionMethod : option string;
  sample_analysisId : option string
}.

(** [generate_sample_plots()], the handler of /api/sample-plots/generate;
    [random_calls] is the number of draws made so far in the process. *)
Definition generate_sample_plots (data : SamplePlotRequest) (random_calls : nat)
  : Response (list SamplePlotGenerator.Plot) SamplePlotStatistics.Stats :=
  let sampling_intensity :=
    match samplingIntensity data with Some i => i | None => 0.02 end in
  let min_plots :=
    match minPlotsPerCompartment data with Some m => m | None => 5%Z end in
  let distribution_method :=
    match distributionMethod data with Some m => m | None => "systematic" end in
  match compartmentGeometryPath data with
  | None => Failure 400 "Missing compartmentGeometryPath parameter"
  | Some "" => Failure 400 "Missing compartmentGeometryPath parameter"
  | Some compartment_geometry_path =>
    let generator :=
      {| SamplePlotGenerator.plot_counter := 0;
         SamplePlotGenerator.random_calls := random_calls |} in
    match
      match read_file compartment_geometry_path with
      | None =>
        reraise_value_error "Failed to generate sample plots"
                            (Raise (Exception "read_file"))
      | Some gdf_compartments =>
        SamplePlotGenerator.generate_sample_plots random_random gdf_compartments
          sampling_intensity min_plots distribution_method generator
      end
    with
    | Raise e => failure_of e
    | Ok (sample_plot_path, _) =>
      match SamplePlotStatistics.get_sample_plot_statistics sample_plot_path with
      | Raise e => failure_of e
      | Ok stats => Success (sample_analysisId data) sample_plot_path stats
      end
    end
  end.

End WithGeometry.

Arguments Success {A B} analysisId geometry statistics.
Arguments Failure {A B} status error.

End Main.

(** ** A concrete planar geometry

    Exact rational geometry for one family of polygons, used to run the
    generators on concrete inputs: an axis-parallel box, optionally cut by
    the half-plane below a line [y <= a + s * x] (rectangles, right
    trapezoids, right triangles and their pieces).  The family is closed
    under intersection with a box, which is all the generators ask for.

    A GeoJSON polygon is its coordinate ring; a ring that is not of the
    family is not read ([shape] fails).  [split] supports the cutting
    rings that [_find_bisecting_line] builds (the outline of a box that
    reaches beyond the polygon along one axis): such a ring cuts the polygon
    into up to three strips, before, inside and after the thin box.  The
    order in which the pieces are listed is a parameter [order] of the
    instance. *)

Module Planar.

Record Poly : Type := {
  x0 : Q; y0 : Q; x1 : Q; y1 : Q;
  (** [Some (a, s)]: only the part with [y <= a + s * x]. *)
  top : option (Q * Q)
}.

Inductive geom : Type :=
| Polygon (p : Poly)
| Outline (p : Poly)
| Empty.

Definition Qclamp (lo hi x : Q) : Q := Qmax lo (Qmin hi x).

(** The integral of [clamp(0, H, t)] for [t] from 0 to [g]. *)
Definition ramp_integral (H g : Q) : Q :=
  if Qle_bool g 0 then 0
  else if Qle_bool g H then g * g / 2
  else H * g - H * H / 2.

Definition poly_area (p : Poly) : Q :=
  if Qltb (x0 p) (x1 p) && Qltb (y0 p) (y1 p) then
    let H := y1 p - y0 p in
    match top p with
    | None => (x1 p - x0 p) * H
    | Some (a, s) =>
      if Qeq_bool s 0 then (x1 p - x0 p) * Qclamp 0 H (a - y0 p)
      else (ramp_integral H (a + s * x1 p - y0 p)
            - ramp_integral H (a + s * x0 p - y0 p)) / s
    end
  else 0.

(** The extent of the region (minx, miny, maxx, maxy). *)
Definition poly_bounds (p : Poly) : Q * Q * Q * Q :=
  match top p with
  | None => (x0 p, y0 p, x1 p, y1 p)
  | Some (a, s) =>
    let foot := (y0 p - a) / s in  (* where the line meets y = y0 *)
    let minx := if Qltb 0 s then Qmax (x0 p) foot else x0 p in
    let maxx := if Qltb s 0 then Qmin (x1 p) foot else x1 p in
    (minx, y0 p, maxx, Qmin (y1 p) (Qmax (a + s * minx) (a + s * maxx)))
  end.

(** Strictly inside the region. *)
Definition poly_contains (p : Poly) (pt : Q * Q) : bool :=
  let '(x, y) := pt in
  Qltb (x0 p) x && Qltb x (x1 p) && Qltb (y0 p) y && Qltb y (y1 p)
  && match top p with
     | None => true
     | Some (a, s) => Qltb y (a + s * x)
     end.

(** The part of [p] with [x <= c], [x >= c], [y <= c], [y >= c]. *)
Definition before_x (p : Poly) (c : Q) : Poly :=
  {| x0 := x0 p; y0 := y0 p; x1 := Qmin (x1 p) c; y1 := y1 p; top := top p |}.
Definition after_x (p : Poly) (c : Q) : Poly :=
  {| x0 := Qmax (x0 p) c; y0 := y0 p; x1 := x1 p; y1 := y1 p; top := top p |}.
Definition before_y (p : Poly) (c : Q) : Poly :=
  {| x0 := x0 p; y0 := y0 p; x1 := x1 p; y1 := Qmin (y1 p) c; top := top p |}.
Definition after_y (p : Poly) (c : Q) : Poly :=
  {| x0 := x0 p; y0 := Qmax (y0 p) c; x1 := x1 p; y1 := y1 p; top := top p |}.

(** The part of [p] inside the box [bx0 <= x <= bx1], [by0 <= y <= by1]. *)
Definition clip (p : Poly) (bx0 by0 bx1 by1 : Q) : Poly :=
  after_y (before_y (after_x (before_x p bx1) bx0) by1) by0.

Definition geom_intersection (g h : geom) : option geom :=
  match g, h with
  | Polygon p, Polygon q =>
    match top q, top p with
    | None, _ => Some (Polygon (clip p (x0 q) (y0 q) (x1 q) (y1 q)))
    | _, None => Some (Polygon (clip q (x0 p) (y0 p) (x1 p) (y1 p)))
    | _, _ => None
    end
  | _, _ => None
  end.

(** The strips of [p] before, inside and after the box [q] along x, when [q]
    reaches beyond [p] along y; the same along y. *)
Definition strips (p q : Poly) : option (list Poly) :=
  let '(minx, miny, maxx, maxy) := poly_bounds p in
  match top q with
  | Some _ => None
  | None =>
    if Qle_bool (x0 q) (x1 q) && Qle_bool (y0 q) (y1 q) then
      if Qltb (y0 q) miny && Qltb maxy (y1 q) then
        Some [ before_x p (x0 q);
               before_x (after_x p (x0 q)) (x1 q);
               after_x p (x1 q) ]
      else if Qltb (x0 q) minx && Qltb maxx (x1 q) then
        Some [ before_y p (y0 q);
               before_y (after_y p (y0 q)) (y1 q);
               after_y p (y1 q) ]
      else None
    else None
  end.

(** The pieces with an interior, listed in the given order. *)
Definition geom_split (order : list nat) (g line : geom) : option (list geom) :=
  match g, line with
  | Polygon p, Outline q =>
    match strips p q with
    | None => None
    | Some ss =>
      Some (map Polygon
              (filter (fun s => Qgtb (poly_area s) 0)
                      (map (fun k => nth k ss p) order)))
    end
  | _, _ => None
  end.

(** A coordinate ring [(x0,y0), (x1,y0), (x1,h1), (x0,h0), (x0,y0)] with
    [x0 < x1] and both heights at or above [y0]; a triangle leaves out the
    vertex [(x1,h1)] when [h1 = y0]. *)
Definition ring_poly (ring : list (Q * Q)) : option Poly :=
  let mk (ax ay bx h1 h0 : Q) : option Poly :=
    if Qltb ax bx && Qle_bool ay h1 && Qle_bool ay h0 then
      Some {| x0 := ax; y0 := ay; x1 := bx; y1 := Qmax h0 h1;
              top := if Qeq_bool h0 h1 then None
                     else let s := (h1 - h0) / (bx - ax) in
                          Some (Qred (h0 - s * ax), Qred s) |}
    else None in
  match ring with
  | [(ax, ay); (bx, by_); (cx, cy); (dx, dy); (ex, ey)] =>
    if Qeq_bool ay by_ && Qeq_bool bx cx && Qeq_bool dx ax
       && Qeq_bool ex ax && Qeq_bool ey ay
    then mk ax ay bx cy dy else None
  | [(ax, ay); (bx, by_); (dx, dy); (ex, ey)] =>
    if Qeq_bool ay by_ && Qeq_bool dx ax && Qeq_bool ex ax && Qeq_bool ey ay
    then mk ax ay bx ay dy else None
  | _ => None
  end.

Definition geometry (order : list nat) : Geometry := {|
  Geom := geom;
  GeoJSON := list (Q * Q);
  shape := fun ring => option_map Polygon (ring_poly ring);
  is_valid := fun g => match g with
                       | Polygon p => Qgtb (poly_area p) 0
                       | _ => true
                       end;
  area := fun g => match g with Polygon p => Qred (poly_area p) | _ => 0 end;
  bounds := fun g => match g with
                     | Polygon p | Outline p => poly_bounds p
                     | Empty => (0, 0, 0, 0)
                     end;
  box := fun minx miny maxx maxy =>
           Polygon {| x0 := minx; y0 := miny; x1 := maxx; y1 := maxy; top := None |};
  boundary := fun g => match g with Polygon p => Outline p | _ => Empty end;
  intersection := geom_intersection;
  split := geom_split order;
  contains := fun g pt => match g with
                          | Polygon p => poly_contains p pt
                          | _ => false
                          end
|}.

(** The length of the interval from [lo] to [hi], 0 when it is empty. *)
Definition span (lo hi : Q) : Q := if Qltb lo hi then hi - lo else 0.

(** The rectangles of the family. *)
Definition rectangle (g : geom) : Prop := exists p, g = Polygon p /\ top p = None.

End Planar.

(** ** Concrete inputs *)

Module Examples.
Import Planar.

(** The six orders in which the three strips of a cut can be listed. *)
Definition orders : list (list nat) :=
  [[0; 1; 2]; [0; 2; 1]; [1; 0; 2]; [1; 2; 0]; [2; 0; 1]; [2; 1; 0]]%nat.

(** The geometry that lists the pieces as shapely does on these inputs:
    the strip before the cutting ring, the sliver inside it, the strip
    after it. *)
Definition planar : Geometry := geometry [0; 1; 2]%nat.

(** The 10 x 10 square of the unit tests. *)
Definition square : list (Q * Q) := [(0, 0); (10, 0); (10, 10); (0, 10); (0, 0)].

(** A right trapezoid: 10 wide, 10 high on the left, 7 high on the right. *)
Definition trapezoid : list (Q * Q) := [(0, 0); (10, 0); (10, 7); (0, 10); (0, 0)].

(** A right triangle with legs of length 10. *)
Definition triangle : list (Q * Q) := [(0, 0); (10, 0); (0, 10); (0, 0)].

(** A frame with one row per ring, identified C1, C2, ... *)
Definition frame_of (rings : list (list (Q * Q))) : list (@SamplePlotGenerator.Row planar) :=
  map (fun '(k, ring) =>
         {| SamplePlotGenerator.row_compartment_id := Some ("C" ++ str (k + 1));
            SamplePlotGenerator.row_geometry :=
              match @shape planar ring with Some g => g | None => Empty end |})
      (combine (seq 0 (List.length rings)) rings).

(** Two of the 50 x 50 compartments of the sample plot tests. *)
Definition two_boxes : list (@SamplePlotGenerator.Row planar) :=
  frame_of [ [(0, 0); (50, 0); (50, 50); (0, 50); (0, 0)];
             [(50, 0); (100, 0); (100, 50); (50, 50); (50, 0)] ].

Definition one_triangle : list (@SamplePlotGenerator.Row planar) := frame_of [triangle].

(** A sequence of draws of [random.random()], and one that always draws 0.9. *)
Definition draws (k : nat) : Q := inject_Z (Z.of_nat ((k * 37 + 11) mod 100)) / 100.
Definition high_draws (k : nat) : Q := 0.9.

Definition fresh : SamplePlotGenerator.Self :=
  {| SamplePlotGenerator.plot_counter := 0; SamplePlotGenerator.random_calls := 0 |}.

(** The frames and plots the generators return on these inputs. *)
Definition frame_or_nil {A} (r : Result (list A)) : list A :=
  match r with Ok rows => rows | Raise _ => [] end.

Definition square_4 : list (@CompartmentGenerator.GdfRow planar) :=
  Eval vm_compute in
    frame_or_nil (@CompartmentGenerator.generate_compartments planar square 4).

Definition square_4_compartments : list (@CompartmentGenerator.Compartment planar) :=
  Eval vm_compute in
    @CompartmentGenerator._recursive_bisection planar
      (Polygon {| x0 := 0; y0 := 0; x1 := 10; y1 := 10; top := None |}) 4 25.

Definition two_boxes_systematic
  : list (@SamplePlotGenerator.Plot) * SamplePlotGenerator.Self :=
  Eval vm_compute in
    match @SamplePlotGenerator.generate_sample_plots planar draws two_boxes 0.02 5
            "systematic" fresh with
    | Ok r => r
    | Raise _ => ([], fresh)
    end.

Definition two_boxes_random
  : list (@SamplePlotGenerator.Plot) * SamplePlotGenerator.Self :=
  Eval vm_compute in
    match @SamplePlotGenerator.generate_sample_plots planar draws two_boxes 0.02 5
            "random" fresh with
    | Ok r => r
    | Raise _ => ([], fresh)
    end.

(** One 50 x 50 compartment and the plots placed in it on a grid. *)
Definition box_50 : @Geom planar :=
  Polygon {| x0 := 0; y0 := 0; x1 := 50; y1 := 50; top := None |}.

Definition box_50_systematic
  : list (@SamplePlotGenerator.Plot) * SamplePlotGenerator.Self :=
  Eval vm_compute in
    match @SamplePlotGenerator._generate_plots_for_compartment planar draws box_50 "C1"
            (SamplePlotGenerator.planned_plots (@area planar box_50) 0.02 5)
            "systematic" fresh with
    | Ok r => r
    | Raise _ => ([], fresh)
    end.

(** The polygon of the triangle; the plots placed in it on a grid by a
    request, and by the random placer when every draw is 0.9. *)
Definition triangle_polygon : @Geom planar :=
  Eval vm_compute in
    match @shape planar triangle with Some g => g | None => Empty end.

Definition triangle_systematic
  : list (@SamplePlotGenerator.Plot) * SamplePlotGenerator.Self :=
  Eval vm_compute in
    match @SamplePlotGenerator.generate_sample_plots planar draws one_triangle 0.02 5
            "systematic" fresh with
    | Ok r => r
    | Raise _ => ([], fresh)
    end.

Definition triangle_random
  : list (@SamplePlotGenerator.Plot) * SamplePlotGenerator.Self :=
  Eval vm_compute in
    @SamplePlotGenerator._generate_random_plots planar high_draws triangle_polygon "C1" 5
      fresh.

(** The areas of the frame returned for [ring] cut in [n], under the
    geometry with the given order of pieces. *)
Definition areas_of (order : list nat) (ring : list (Q * Q)) (n : Z) : list Q :=
  map (@CompartmentGenerator.row_area (geometry order))
      (frame_or_nil (@CompartmentGenerator.generate_compartments (geometry order) ring n)).

(** The area of the polygon of [ring]. *)
Definition area_of (order : list nat) (ring : list (Q * Q)) : Q :=
  match @shape (geometry order) ring with
  | Some g => @area (geometry order) g
  | None => 0
  end.

End Examples.

(** ** Further examples: statistics and requests *)

Module MoreExamples.
Import Planar Examples.

(** The polygon of the square, and a polygon as narrow as the cutting ring
    is wide. *)
Definition square_polygon : @Geom planar :=
  Polygon {| x0 := 0; y0 := 0; x1 := 10; y1 := 10; top := None |}.

Definition sliver : @Geom planar :=
  Polygon {| x0 := 0; y0 := 0; x1 := 0.0002; y1 := 10; top := None |}.

(** The cutting ring found for the sliver when two compartments are
    requested. *)
Definition sliver_line : @Geom planar :=
  Eval vm_compute in
    match @CompartmentGenerator._find_bisecting_line planar sliver 0.001 with
    | Some line => line
    | None => Empty
    end.

(** The plots placed at random in the 50 x 50 compartment. *)
Definition box_50_random : list SamplePlotGenerator.Plot * SamplePlotGenerator.Self :=
  Eval vm_compute in
    @SamplePlotGenerator._generate_random_plots planar draws box_50 "C1" 5 fresh.

(** The two boxes, one frame each, and the plots of the first alone. *)
Definition first_box : list (@SamplePlotGenerator.Row planar) :=
  Eval vm_compute in firstn 1 two_boxes.

Definition second_box : list (@SamplePlotGenerator.Row planar) :=
  Eval vm_compute in skipn 1 two_boxes.

Definition first_box_systematic
  : list SamplePlotGenerator.Plot * SamplePlotGenerator.Self :=
  Eval vm_compute in
    match @SamplePlotGenerator.generate_sample_plots planar draws first_box 0.02 5
            "systematic" fresh with
    | Ok r => r
    | Raise _ => ([], fresh)
    end.

(** A rational approximation of the square root: four steps of Newton's
    method. *)
Definition newton_sqrt (x : Q) : Q :=
  let step y := Qred ((y + x / y) / 2) in
  if Qle_bool x 0 then 0 else step (step (step (step (Qred ((x + 1) / 2))))).

(** The statistics of the compartments of the square cut in four and of the plots
    of the two boxes. *)
Definition no_statistics : CompartmentStatistics.Stats :=
  {| CompartmentStatistics.num_compartments := 0;
     CompartmentStatistics.total_area := 0;
     CompartmentStatistics.mean_area := 0;
     CompartmentStatistics.min_area := 0;
     CompartmentStatistics.max_area := 0;
     CompartmentStatistics.std_area := 0;
     CompartmentStatistics.area_variance := 0 |}.

Definition square_4_statistics : CompartmentStatistics.Stats :=
  Eval vm_compute in
    match @CompartmentStatistics.get_compartment_statistics planar newton_sqrt square_4 with
    | Ok st => st
    | Raise _ => no_statistics
    end.

Definition no_plot_statistics : SamplePlotStatistics.Stats :=
  {| SamplePlotStatistics.total_plots := 0;
     SamplePlotStatistics.plots_per_compartment := [];
     SamplePlotStatistics.min_plots := 0;
     SamplePlotStatistics.max_plots := 0;
     SamplePlotStatistics.avg_plots := 0 |}.

Definition two_boxes_statistics : SamplePlotStatistics.Stats :=
  Eval vm_compute in
    match SamplePlotStatistics.get_sample_plot_statistics (fst two_boxes_systematic) with
    | Ok st => st
    | Raise _ => no_plot_statistics
    end.

(** Requests: an empty coordinate ring is falsy; one compartment file
    holds the two boxes, one is empty, and no other file exists. *)
Definition ring_is_empty (ring : list (Q * Q)) : bool :=
  match ring with
  | [] => true
  | _ => false
  end.

Definition files (path : string) : option (list (@SamplePlotGenerator.Row planar)) :=
  if String.eqb path "compartments.geojson" then Some two_boxes
  else if String.eqb path "empty.geojson" then Some []
  else None.

Definition compartment_request (n : option Z) : @Main.CompartmentRequest planar :=
  @Main.Build_CompartmentRequest planar (Some square) n (Some "a1").

Definition sample_request (path : option string) : Main.SamplePlotRequest :=
  {| Main.compartmentGeometryPath := path;
     Main.samplingIntensity := None;
     Main.minPlotsPerCompartment := None;
     Main.distributionMethod := None;
     Main.sample_analysisId := None |}.

End MoreExamples.

(** ** Vocabulary of the properties *)

(** The identifiers [C1, ..., Ck]. *)
Definition compartment_ids (k : nat) : list string :=
  map (fun i => "C" ++ str i) (seq 1 k).

(** The identifiers [SP-01, SP-02, ...] numbered [from+1 .. from+k]. *)
Definition plot_ids_from (from k : nat) : list string :=
  map (fun i => "SP-" ++ format_02d i) (seq (S from) k).

(** [|a - m| <= tol * m]. *)
Definition within (tol a m : Q) : Prop := Qabs (a - m) <= tol * m.

(** The identifier a row's plots carry: its [compartment_id], or
    [C{idx+1}] when the frame has no such column. *)
Definition owner_id {G : Geometry} (row : SamplePlotGenerator.Row) (idx : nat) : string :=
  match SamplePlotGenerator.row_compartment_id row with
  | Some id => id
  | None => "C" ++ str (idx + 1)
  end.

(** The plot carries the identifier [cid] and lies in the polygon [g]. *)
Definition placed_in {G : Geometry} (g : Geom) (cid : string)
    (pl : SamplePlotGenerator.Plot) : Prop :=
  SamplePlotGenerator.compartment_id pl = cid
  /\ contains g (SamplePlotGenerator.geometry pl) = true.

(** The plot lies in the polygon of a row of the frame whose identifier it
    carries; [idx0] is the index of the first row of [rows]. *)
Definition owned {G : Geometry} (rows : list SamplePlotGenerator.Row) (idx0 : nat)
    (pl : SamplePlotGenerator.Plot) : Prop :=
  exists k row, nth_error rows k = Some row
    /\ placed_in (SamplePlotGenerator.row_geometry row) (owner_id row (idx0 + k)) pl.

(** From the state [self] and the list [plots], a run ended with [plots']
    and [self']: it appended plots numbered on from the counter, each
    satisfying [P], and never went beyond [num_plots] plots. *)
Definition plots_added {G : Geometry} (P : SamplePlotGenerator.Plot -> Prop)
    (num_plots : Z) (plots : list SamplePlotGenerator.Plot)
    (self : SamplePlotGenerator.Self)
    (plots' : list SamplePlotGenerator.Plot) (self' : SamplePlotGenerator.Self) : Prop :=
  exists new,
    plots' = (plots ++ new)%list
    /\ map SamplePlotGenerator.plot_id new
       = plot_ids_from (SamplePlotGenerator.plot_counter self) (List.length new)
    /\ SamplePlotGenerator.plot_counter self'
       = (SamplePlotGenerator.plot_counter self + List.length new)%nat
    /\ Forall P new
    /\ ((Z.of_nat (List.length plots) <= Z.max 0 num_plots)%Z ->
        (Z.of_nat (List.length plots') <= Z.max 0 num_plots)%Z).

(** The same, without the bound on the number of plots. *)
Definition plots_numbered {G : Geometry} (P : SamplePlotGenerator.Plot -> Prop)
    (plots : list SamplePlotGenerator.Plot) (self : SamplePlotGenerator.Self)
    (plots' : list SamplePlotGenerator.Plot) (self' : SamplePlotGenerator.Self) : Prop :=
  exists new,
    plots' = (plots ++ new)%list
    /\ map SamplePlotGenerator.plot_id new
       = plot_ids_from (SamplePlotGenerator.plot_counter self) (List.length new)
    /\ SamplePlotGenerator.plot_counter self'
       = (SamplePlotGenerator.plot_counter self + List.length new)%nat
    /\ Forall P new.

(** The centre of cell (i, j) of the grid laid over the bounding box of [g]
    for [num_plots] plots. *)
Definition grid_point {G : Geometry} (g : Geom) (num_plots : Z) (i j : Z) : Q * Q :=
  let '(minx, miny, maxx, maxy) := bounds g in
  let grid_size := (Z.sqrt num_plots + 1)%Z in
  (minx + (inject_Z i + 0.5) * ((maxx - minx) / inject_Z grid_size),
   miny + (inject_Z j + 0.5) * ((maxy - miny) / inject_Z grid_size)).

(** A polygon that its own cutting line does not cut in two. *)
Definition uncut {G : Geometry} (p : Geom) (t : Q) : Prop :=
  forall line, CompartmentGenerator._find_bisecting_line p t = Some line ->
    match split p line with
    | Some (_ :: _ :: _) => False
    | _ => True
    end.

(** The point tried by attempt [t] of the random placer when [c] draws
    were made before its first attempt. *)
Definition attempt_point {G : Geometry} (random_random : nat -> Q) (g : Geom)
    (c t : nat) : Q * Q :=
  let '(minx, miny, maxx, maxy) := bounds g in
  (minx + (maxx - minx) * random_random (c + 2 * t)%nat,
   miny + (maxy - miny) * random_random (c + 2 * t + 1)%nat).

(** The point of the plot is (longitude, latitude). *)
Definition coordinates_agree (pl : SamplePlotGenerator.Plot) : Prop :=
  SamplePlotGenerator.geometry pl
  = (SamplePlotGenerator.longitude pl, SamplePlotGenerator.latitude pl).

(** [a] comes before [b] in the order of strings. *)
Definition string_lt (a b : string) : Prop := String.compare a b = Lt.

(** [counts.get(id, 0)] on a dictionary given by its items. *)
Definition count_for (id : string) (counts : list (string * nat)) : nat :=
  match find (fun kc => String.eqb (fst kc) id) counts with
  | Some (_, c) => c
  | None => 0%nat
  end.

(** The keys of a dictionary come in strictly increasing order, and its
    values are at least 1. *)
Definition keys_increase (counts : list (string * nat)) : Prop :=
  StronglySorted string_lt (map fst counts).

Definition counts_positive (counts : list (string * nat)) : Prop :=
  Forall (fun kc => (1 <= snd kc)%nat) counts.

(** The number of plots of [gdf] that lie in compartment [id]. *)
Definition plots_in (id : string) (gdf : list SamplePlotGenerator.Plot) : nat :=
  List.length (filter (fun p => String.eqb (SamplePlotGenerator.compartment_id p) id) gdf).

(** [data.get('numCompartments', 4)]. *)
Definition requested_compartments {G : Geometry} (data : Main.CompartmentRequest) : Z :=
  match Main.numCompartments data with
  | Some n => n
  | None => 4%Z
  end.

(** * Properties *)

(** ** Numbers and strings *)

Lemma Qltb_lt (x y : Q) : Qltb x y = true <-> x < y.
Proof.
  unfold Qltb. rewrite negb_true_iff. split; intro H.
  - apply Qnot_le_lt. intro Hle. apply Qle_bool_iff in Hle. congruence.
  - destruct (Qle_bool y x) eqn:E; [|reflexivity].
    apply Qle_bool_iff in E. exfalso. apply (Qlt_not_le _ _ H E).
Qed.

Lemma Qltb_ge (x y : Q) : Qltb x y = false <-> y <= x.
Proof.
  unfold Qltb. rewrite negb_false_iff. apply Qle_bool_iff.
Qed.


(** [round] yields an integer nearest to its argument. *)
Lemma py_round_nearest (x : Q) : Qabs (inject_Z (py_round x) - x) <= 1 # 2.
Proof.
  unfold py_round. pose proof (Qfloor_le x) as Hle. pose proof (Qlt_floor x) as Hlt.
  rewrite inject_Z_plus in Hlt. change (inject_Z 1) with 1 in Hlt.
  apply Qabs_Qle_condition.
  destruct (Qcompare (x - inject_Z (Qfloor x)) (1 # 2)) eqn:E.
  - apply Qeq_alt in E. destruct (Z.even (Qfloor x)).
    + split; lra.
    + rewrite inject_Z_plus. change (inject_Z 1) with 1. split; lra.
  - apply Qlt_alt in E. split; lra.
  - apply Qgt_alt in E. rewrite inject_Z_plus. change (inject_Z 1) with 1. split; lra.
Qed.

Lemma str_inj (n m : nat) : str n = str m -> n = m.
Proof.
  unfold str. intro H. apply Unsigned.to_uint_inj.
  assert (E : Some (Nat.to_uint n) = Some (Nat.to_uint m))
    by (rewrite <- !NilEmpty.usu; now rewrite H).
  now inversion E.
Qed.

Lemma str_not_zero_prefixed (n m : nat) : str m <> String "0" (str n).
Proof.
  unfold str. intro H.
  assert (E : NilEmpty.uint_of_string (NilEmpty.string_of_uint (Nat.to_uint m))
              = Some (D0 (Nat.to_uint n))).
  { rewrite H. cbn [NilEmpty.uint_of_string]. rewrite NilEmpty.usu. reflexivity. }
  rewrite NilEmpty.usu in E. inversion E as [E'].
  assert (Hm : m = n).
  { rewrite <- (Unsigned.of_to m), <- (Unsigned.of_to n), E'. reflexivity. }
  subst m. apply (f_equal String.length) in H. simpl in H. lia.
Qed.

Lemma format_02d_inj (n m : nat) : format_02d n = format_02d m -> n = m.
Proof.
  unfold format_02d.
  destruct (String.length (str n) <? 2)%nat eqn:En,
           (String.length (str m) <? 2)%nat eqn:Em; cbn [append]; intro H.
  - inversion H. now apply str_inj.
  - symmetry in H. now apply str_not_zero_prefixed in H.
  - now apply str_not_zero_prefixed in H.
  - now apply str_inj.
Qed.

Lemma str_nonempty (n : nat) : (1 <= String.length (str n))%nat.
Proof.
  destruct (str n) as [|c s] eqn:E; [exfalso|cbn; lia].
  pose proof (NilEmpty.usu (Nat.to_uint n)) as H. unfold str in E. rewrite E in H.
  cbn in H. inversion H as [Hnil].
  pose proof (Unsigned.to_of (Nat.to_uint n)) as Hn.
  rewrite Unsigned.of_to, <- Hnil in Hn. discriminate Hn.
Qed.

Lemma format_02d_width (n : nat) : (2 <= String.length (format_02d n))%nat.
Proof.
  unfold format_02d. pose proof (str_nonempty n) as H.
  destruct (String.length (str n) <? 2)%nat eqn:E.
  - cbn. lia.
  - apply Nat.ltb_ge in E. exact E.
Qed.

Lemma NoDup_map_seq {A} (f : nat -> A) (a k : nat) :
  (forall i j, f i = f j -> i = j) -> NoDup (map f (seq a k)).
Proof.
  intro Hinj. revert a. induction k as [|k IH]; intro a; cbn [seq map].
  - constructor.
  - constructor; [|apply IH].
    rewrite in_map_iff. intros (j & Hj & Hin). apply Hinj in Hj. subst j.
    apply in_seq in Hin. lia.
Qed.

Lemma nth_error_map_seq {A} (f : nat -> A) (a k i : nat) (x : A) :
  nth_error (map f (seq a k)) i = Some x -> x = f (a + i)%nat.
Proof.
  revert a i. induction k as [|k IH]; intros a i H; cbn [seq map] in H.
  - destruct i; discriminate.
  - destruct i as [|i]; cbn [nth_error] in H.
    + inversion H. now rewrite Nat.add_0_r.
    + apply IH in H. now rewrite Nat.add_succ_r.
Qed.

Lemma map_filter_nil {A B} (f : A -> bool) (g : A -> B) (l : list A) :
  map g (filter f l) = [] <-> Forall (fun a => f a = false) l.
Proof.
  induction l as [|a l IH]; cbn [filter].
  - split; [constructor|reflexivity].
  - destruct (f a) eqn:E; cbn [map].
    + split; intro H; [discriminate H|inversion H; congruence].
    + rewrite IH. split; intro H; [now constructor|now inversion H].
Qed.

Lemma Forall_iff_pointwise {A} (P Q : A -> Prop) (l : list A) :
  (forall a, P a <-> Q a) -> (Forall P l <-> Forall Q l).
Proof.
  intro H. split; apply Forall_impl; intro a; apply H.
Qed.

Lemma compartment_ids_NoDup (k : nat) : NoDup (compartment_ids k).
Proof.
  apply NoDup_map_seq. intros i j H. inversion H. now apply str_inj.
Qed.

Lemma plot_ids_NoDup (from k : nat) : NoDup (plot_ids_from from k).
Proof.
  apply NoDup_map_seq. intros i j H. inversion H. now apply format_02d_inj.
Qed.

Lemma plot_ids_app (from k l : nat) :
  plot_ids_from from (k + l)
  = (plot_ids_from from k ++ plot_ids_from (from + k) l)%list.
Proof.
  unfold plot_ids_from. rewrite seq_app, map_app. reflexivity.
Qed.

Lemma Qsum_app (xs ys : list Q) : Qsum (xs ++ ys) == Qsum xs + Qsum ys.
Proof.
  unfold Qsum. induction xs as [|x xs IH]; simpl.
  - ring.
  - rewrite IH. ring.
Qed.

(** ** The compartment generator *)

Module CompartmentFacts.
Import CompartmentGenerator.

Section WithGeometry.
Context {G : Geometry}.

Lemma append_compartment_ids (cs : list Compartment) (p : Geom) :
  map snd cs = compartment_ids (List.length cs) ->
  map snd (append_compartment cs p)
  = compartment_ids (List.length (append_compartment cs p)).
Proof.
  unfold append_compartment, compartment_ids, Compartment in *. intro H.
  rewrite map_app, length_app, H, seq_app, map_app. cbn [List.length map seq].
  rewrite (Nat.add_comm 1 (List.length cs)). reflexivity.
Qed.

(** The depth cap: beyond depth 10 a call never recurses. *)
Lemma bisection_depth_cap (fuel : nat) (p : Geom) (n : Z) (t : Q)
    (acc : list Compartment) (d : nat) :
  (10 < d)%nat ->
  _recursive_bisection_fuel (S fuel) p n t acc d
  = Some (if (Z.of_nat (List.length acc) >=? n)%Z then acc
          else append_compartment acc p).
Proof.
  intro Hd. cbn [_recursive_bisection_fuel].
  destruct (Z.of_nat (List.length acc) >=? n)%Z; [reflexivity|].
  unfold small_enough. apply Nat.ltb_lt in Hd. rewrite Hd, orb_true_r. reflexivity.
Qed.

(** Enough fuel: a call at depth [d] nests at most [12 - d] calls. *)
Lemma bisection_fuel_total (fuel : nat) :
  forall (p : Geom) (n : Z) (t : Q) (acc : list Compartment) (d : nat),
    (1 <= fuel)%nat -> (12 <= fuel + d)%nat ->
    exists r, _recursive_bisection_fuel fuel p n t acc d = Some r.
Proof.
  induction fuel as [|fuel IH]; intros p n t acc d H1 H12; [lia|].
  cbn [_recursive_bisection_fuel].
  destruct (Z.of_nat (List.length acc) >=? n)%Z; [eauto|].
  destruct (small_enough p t d) eqn:Esmall; [eauto|].
  destruct (_find_bisecting_line p t) as [line|]; [|eauto].
  assert (Hd : (d <= 10)%nat).
  { unfold small_enough in Esmall. apply orb_false_elim in Esmall.
    destruct Esmall as [_ E]. apply Nat.ltb_ge in E. exact E. }
  assert (Hrec : forall q acc', exists r,
             _recursive_bisection_fuel fuel q n t acc' (d + 1) = Some r)
    by (intros; apply IH; lia).
  destruct (_split_polygon p line) as [left_ right_].
  destruct (Qgtb (area left_) 0).
  - destruct (Hrec left_ acc) as [r1 ->].
    destruct right_ as [r|]; [|eauto]. destruct (Qgtb (area r) 0); eauto.
  - destruct right_ as [r|]; [|eauto]. destruct (Qgtb (area r) 0); eauto.
Qed.

Lemma bisection_total (p : Geom) (n : Z) (t : Q) :
  _recursive_bisection_fuel 12 p n t [] 0 = Some (_recursive_bisection p n t).
Proof.
  unfold _recursive_bisection.
  destruct (bisection_fuel_total 12 p n t [] 0) as [r ->]; [lia|lia|reflexivity].
Qed.

(** An invariant of the accumulator that every [append] keeps is kept by the
    whole traversal. *)
Lemma bisection_invariant (P : list Compartment -> Prop) :
  (forall cs p, P cs -> P (append_compartment cs p)) ->
  forall fuel p n t acc d r,
    P acc -> _recursive_bisection_fuel fuel p n t acc d = Some r -> P r.
Proof.
  intros Happ. induction fuel as [|fuel IH]; intros p n t acc d r Hacc Hr;
    [discriminate|].
  cbn [_recursive_bisection_fuel] in Hr.
  destruct (Z.of_nat (List.length acc) >=? n)%Z; [inversion Hr; subst; assumption|].
  destruct (small_enough p t d); [inversion Hr; subst; now apply Happ|].
  destruct (_find_bisecting_line p t) as [line|];
    [|inversion Hr; subst; now apply Happ].
  destruct (_split_polygon p line) as [left_ right_].
  assert (Hright : forall acc1, P acc1 ->
            match right_ with
            | Some r0 => if Qgtb (area r0) 0
                         then _recursive_bisection_fuel fuel r0 n t acc1 (d + 1)
                         else Some acc1
            | None => Some acc1
            end = Some r -> P r).
  { intros acc1 H1 E. destruct right_ as [r0|]; [|inversion E; subst; assumption].
    destruct (Qgtb (area r0) 0); [eapply IH; eassumption|inversion E; subst; assumption]. }
  destruct (Qgtb (area left_) 0).
  - destruct (_recursive_bisection_fuel fuel left_ n t acc (d + 1)) as [acc1|] eqn:E1;
      [|discriminate].
    apply (Hright acc1); [eapply IH; eassumption|exact Hr].
  - apply (Hright acc); assumption.
Qed.

Lemma bisection_ids (p : Geom) (n : Z) (t : Q) :
  map snd (_recursive_bisection p n t)
  = compartment_ids (List.length (_recursive_bisection p n t)).
Proof.
  apply (bisection_invariant
           (fun cs => map snd cs = compartment_ids (List.length cs))
           append_compartment_ids 12 p n t [] 0); [reflexivity|apply bisection_total].
Qed.

(** With fewer than one compartment requested nothing is produced. *)
Lemma bisection_nonpositive (p : Geom) (n : Z) (t : Q) :
  (n <= 0)%Z -> _recursive_bisection p n t = [].
Proof.
  intro Hn. unfold _recursive_bisection. generalize 11%nat. intro fuel.
  cbn [_recursive_bisection_fuel List.length].
  destruct (Z.of_nat 0 >=? n)%Z eqn:E; [reflexivity|]. cbn in E. lia.
Qed.

(** A polygon within 10% of the target area is accepted whole. *)
Lemma bisection_accepts_whole (p : Geom) (n : Z) (t : Q) :
  (0 < n)%Z -> Qabs (area p - t) < t * 0.1 ->
  _recursive_bisection p n t = [(p, "C1")].
Proof.
  intros Hn Hsmall. unfold _recursive_bisection. generalize 11%nat. intro fuel.
  cbn [_recursive_bisection_fuel List.length].
  destruct (Z.of_nat 0 >=? n)%Z eqn:E; [cbn in E; lia|].
  unfold small_enough. apply Qltb_lt in Hsmall. rewrite Hsmall. reflexivity.
Qed.

Lemma generate_compartments_ok (boundary : GeoJSON) (n : Z) (rows : list GdfRow) :
  generate_compartments boundary n = Ok rows ->
  exists g, shape boundary = Some g /\ is_valid g = true /\ n <> 0%Z /\
    rows = _create_compartment_geodataframe
             (_recursive_bisection g n (area g / inject_Z n)).
Proof.
  unfold generate_compartments, reraise_value_error. intro H.
  destruct (shape boundary) as [g|]; [|discriminate].
  destruct (is_valid g) eqn:Ev; [|discriminate]. cbn [negb] in H.
  destruct (n =? 0)%Z eqn:En; [discriminate|]. apply Z.eqb_neq in En.
  inversion H. eauto.
Qed.

Lemma create_geodataframe_ids (cs : list Compartment) :
  map row_compartment_id (_create_compartment_geodataframe cs) = map snd cs.
Proof.
  unfold _create_compartment_geodataframe. rewrite map_map. reflexivity.
Qed.

Lemma create_geodataframe_areas (cs : list Compartment) :
  map row_area (_create_compartment_geodataframe cs)
  = map (fun c : Compartment => area (fst c)) cs.
Proof.
  unfold _create_compartment_geodataframe. rewrite map_map. reflexivity.
Qed.

(** C1: a successful partition with k compartments carries the identifiers
    C1, ..., Ck in order of creation: the i-th compartment created is C{i},
    and no identifier occurs twice. *)
Theorem sequential_numbering (boundary : GeoJSON) (n : Z) (rows : list GdfRow) :
  generate_compartments boundary n = Ok rows ->
  map row_compartment_id rows = compartment_ids (List.length rows)
  /\ NoDup (map row_compartment_id rows)
  /\ (forall i id, nth_error (map row_compartment_id rows) i = Some id ->
                   id = "C" ++ str (i + 1)).
Proof.
  intro H.
  assert (Hids : map row_compartment_id rows = compartment_ids (List.length rows)).
  { apply generate_compartments_ok in H as (g & _ & _ & _ & ->).
    rewrite create_geodataframe_ids, bisection_ids.
    unfold _create_compartment_geodataframe. now rewrite length_map. }
  split; [exact Hids|]. rewrite Hids. split; [apply compartment_ids_NoDup|].
  intros i id Hnth. apply nth_error_map_seq in Hnth. now rewrite Nat.add_comm.
Qed.

(** [_validate_compartments] logs no warning exactly when every compartment
    lies within 5% of the mean area. *)
Lemma area_balance_is_reported (cs : list Compartment) (target_area : Q) :
  _validate_compartments cs target_area = []
  <-> Forall (fun c => within 0.05 (area (fst c))
                              (np_mean (map (fun c => area (fst c)) cs))) cs.
Proof.
  unfold _validate_compartments. rewrite map_filter_nil.
  apply Forall_iff_pointwise. intro c. unfold within, Qgtb.
  rewrite Qltb_ge. split; intro H; lra.
Qed.

(** Under a geometry whose areas are never negative and whose split pieces
    fit in the polygon they come from, a call adds compartments whose areas
    sum to at most the area of its polygon. *)
Lemma bisection_area_bound (Inv : Geom -> Prop)
    (Hnonneg : forall g, Inv g -> 0 <= area g)
    (Hsplit : forall p line g0 g1 rest, Inv p ->
                split p line = Some (g0 :: g1 :: rest) ->
                Inv g0 /\ Inv g1 /\ area g0 + area g1 <= area p) :
  forall fuel p n t acc d r,
    Inv p -> _recursive_bisection_fuel fuel p n t acc d = Some r ->
    exists new, r = (acc ++ new)%list
                /\ Qsum (map (fun c : Compartment => area (fst c)) new) <= area p.
Proof.
  induction fuel as [|fuel IH]; intros p n t acc d r Hp Hr; [discriminate|].
  cbn [_recursive_bisection_fuel] in Hr.
  assert (Hnone : exists new : list Compartment, acc = (acc ++ new)%list
            /\ Qsum (map (fun c : Compartment => area (fst c)) new) <= area p).
  { exists []. rewrite app_nil_r. split; [reflexivity|]. cbn. now apply Hnonneg. }
  assert (Hone : exists new : list Compartment,
            append_compartment acc p = (acc ++ new)%list
            /\ Qsum (map (fun c : Compartment => area (fst c)) new) <= area p).
  { eexists. split; [reflexivity|]. cbn. lra. }
  destruct (Z.of_nat (List.length acc) >=? n)%Z; [inversion Hr; subst; exact Hnone|].
  destruct (small_enough p t d); [inversion Hr; subst; exact Hone|].
  destruct (_find_bisecting_line p t) as [line|]; [|inversion Hr; subst; exact Hone].
  clear Hone. unfold _split_polygon in Hr.
  assert (Hself : (if Qgtb (area p) 0
                   then _recursive_bisection_fuel fuel p n t acc (d + 1)
                   else Some acc) = Some r ->
                  exists new : list Compartment, r = (acc ++ new)%list
                    /\ Qsum (map (fun c : Compartment => area (fst c)) new) <= area p).
  { intro E. destruct (Qgtb (area p) 0); [eapply IH; eassumption|].
    inversion E; subst; exact Hnone. }
  destruct (split p line) as [[|g0 [|g1 rest]]|] eqn:Es;
    try (apply Hself; destruct (Qgtb (area p) 0);
         [destruct (_recursive_bisection_fuel fuel p n t acc (d + 1));
          [exact Hr|discriminate]|exact Hr]).
  destruct (Hsplit p line g0 g1 rest Hp Es) as (H0 & H1 & Hsum).
  assert (Hleft : exists acc1 new1, (if Qgtb (area g0) 0
                     then _recursive_bisection_fuel fuel g0 n t acc (d + 1)
                     else Some acc) = Some acc1
                  /\ acc1 = (acc ++ new1)%list
                  /\ Qsum (map (fun c : Compartment => area (fst c)) new1) <= area g0).
  { destruct (Qgtb (area g0) 0).
    - destruct (_recursive_bisection_fuel fuel g0 n t acc (d + 1)) as [acc1|] eqn:E1;
        [|discriminate].
      destruct (IH _ _ _ _ _ _ H0 E1) as (new1 & -> & Hb). eauto.
    - exists acc, []. rewrite app_nil_r. repeat split. cbn. now apply Hnonneg. }
  destruct Hleft as (acc1 & new1 & E1 & -> & Hb1). rewrite E1 in Hr.
  assert (Hright : exists new2, r = ((acc ++ new1) ++ new2)%list
                   /\ Qsum (map (fun c : Compartment => area (fst c)) new2) <= area g1).
  { destruct (Qgtb (area g1) 0).
    - eapply IH; eassumption.
    - inversion Hr; subst. exists []. rewrite app_nil_r. split; [reflexivity|].
      cbn. now apply Hnonneg. }
  destruct Hright as (new2 & -> & Hb2).
  exists (new1 ++ new2)%list. rewrite app_assoc. split; [reflexivity|].
  rewrite map_app, Qsum_app. lra.
Qed.

(** C3 (as amended): no area is duplicated.  When the geometry library
    returns areas that are never negative and split pieces whose areas sum
    to at most the area of the polygon split (on the polygons that can
    arise, [Inv]), the areas of the produced compartments sum to at most the
    area of the boundary polygon.  Area can be lost: pieces still pending
    when the requested count is reached are abandoned, and only the first
    two pieces of a split are kept. *)
Theorem area_not_duplicated (Inv : Geom -> Prop)
    (Hnonneg : forall g, Inv g -> 0 <= area g)
    (Hsplit : forall p line g0 g1 rest, Inv p ->
                split p line = Some (g0 :: g1 :: rest) ->
                Inv g0 /\ Inv g1 /\ area g0 + area g1 <= area p)
    (boundary : GeoJSON) (g : Geom) (n : Z) (rows : list GdfRow) :
  shape boundary = Some g -> Inv g ->
  generate_compartments boundary n = Ok rows ->
  Qsum (map row_area rows) <= area g.
Proof.
  intros Hshape Hg H. apply generate_compartments_ok in H as (g' & Hs & _ & _ & ->).
  rewrite Hshape in Hs. inversion Hs. subst g'.
  rewrite create_geodataframe_areas.
  destruct (bisection_area_bound Inv Hnonneg Hsplit 12 g n (area g / inject_Z n) [] 0
              _ Hg (bisection_total _ _ _)) as (new & -> & Hb).
  exact Hb.
Qed.

(** A negative [num_compartments] is not rejected: the bisection stops at
    once and an empty frame is handed to the writer. *)
Lemma partition_negative_count (boundary : GeoJSON) (g : Geom) (n : Z) :
  shape boundary = Some g -> is_valid g = true -> (n < 0)%Z ->
  generate_compartments boundary n = Ok [].
Proof.
  intros Hs Hv Hn. unfold generate_compartments, reraise_value_error.
  rewrite Hs, Hv. cbn [negb].
  destruct (n =? 0)%Z eqn:E; [apply Z.eqb_eq in E; lia|].
  rewrite bisection_nonpositive by lia. reflexivity.
Qed.

(** C8 (as amended): the partition fails with a [ValueError] whenever the
    geometry cannot be built from the input, the geometry library reports
    the polygon invalid, or [num_compartments] is 0 (a division by zero); a
    negative [num_compartments] is not rejected: on a valid polygon the
    bisection returns at once with an empty list of compartments. *)
Theorem partition_rejects (boundary : GeoJSON) (n : Z) :
  (shape boundary = None
   \/ (exists g, shape boundary = Some g /\ is_valid g = false)
   \/ n = 0%Z ->
   exists msg, generate_compartments boundary n = Raise (ValueError msg))
  /\ ((exists g, shape boundary = Some g /\ is_valid g = true) -> (n < 0)%Z ->
      generate_compartments boundary n = Ok []).
Proof.
  split.
  - unfold generate_compartments, reraise_value_error. intros [H|[(g & H & Hv)|H]].
    + rewrite H. eauto.
    + rewrite H, Hv. cbn [negb]. eauto.
    + subst n. destruct (shape boundary) as [g|]; [|eauto].
      destruct (is_valid g); cbn [negb Z.eqb]; eauto.
  - intros (g & Hs & Hv) Hn. now apply (partition_negative_count boundary g).
Qed.

End WithGeometry.
End CompartmentFacts.

(** ** The sample plot generator *)

Module SamplePlotFacts.
Import SamplePlotGenerator.

Section WithGeometry.
Context {G : Geometry}.
Variable random_random : nat -> Q.

Lemma plots_added_refl (P : Plot -> Prop) (n : Z) (plots : list Plot) (self : Self) :
  plots_added P n plots self plots self.
Proof.
  exists []. rewrite app_nil_r, Nat.add_0_r. repeat split; auto.
Qed.

Lemma plots_added_trans (P : Plot -> Prop) (n : Z) (p1 p2 p3 : list Plot)
    (s1 s2 s3 : Self) :
  plots_added P n p1 s1 p2 s2 -> plots_added P n p2 s2 p3 s3 ->
  plots_added P n p1 s1 p3 s3.
Proof.
  intros (new1 & -> & Hid1 & Hc1 & HP1 & Hb1) (new2 & -> & Hid2 & Hc2 & HP2 & Hb2).
  exists (new1 ++ new2)%list. rewrite app_assoc, map_app, length_app, plot_ids_app.
  rewrite Hid1, Hid2, Hc2, Hc1, Nat.add_assoc. repeat split; auto.
  now apply Forall_app.
Qed.

Lemma plots_added_weaken (P Q : Plot -> Prop) (n : Z) (p1 p2 : list Plot) (s1 s2 : Self) :
  (forall pl, P pl -> Q pl) -> plots_added P n p1 s1 p2 s2 -> plots_added Q n p1 s1 p2 s2.
Proof.
  intros HPQ (new & -> & Hid & Hc & HP & Hb). exists new. repeat split; auto.
  eapply Forall_impl; eassumption.
Qed.

(** One accepted point: the counter is bumped and the plot appended. *)
Lemma plots_added_one (g : Geom) (cid : string) (n : Z) (plots : list Plot)
    (self : Self) (x y : Q) :
  enough plots n = false -> contains g (x, y) = true ->
  plots_added (placed_in g cid) n plots self
    (plots ++ [make_plot (fst (next_plot_id self)) cid x y]) (snd (next_plot_id self)).
Proof.
  intros Hn Hc. eexists. split; [reflexivity|]. cbn. repeat split; auto.
  - now rewrite Nat.add_1_r.
  - repeat constructor. exact Hc.
  - intros _. unfold enough in Hn. rewrite length_app. cbn [List.length]. lia.
Qed.

Lemma random_uniform_state (a b : Q) (self : Self) (x : Q) (self' : Self) :
  random_uniform random_random a b self = (x, self') ->
  plot_counter self' = plot_counter self
  /\ random_calls self' = S (random_calls self).
Proof. unfold random_uniform. intro H. inversion H. split; reflexivity. Qed.

Lemma next_plot_id_state (self : Self) :
  random_calls (snd (next_plot_id self)) = random_calls self.
Proof. reflexivity. Qed.

Lemma plots_added_counter (P : Plot -> Prop) (n : Z) (plots plots' : list Plot)
    (s1 s1' s2 : Self) :
  plot_counter s1 = plot_counter s1' ->
  plots_added P n plots s1' plots' s2 -> plots_added P n plots s1 plots' s2.
Proof.
  intros E (new & -> & Hid & Hc & HP & Hb). exists new. rewrite E. repeat split; auto.
Qed.

Section Systematic.
Variables (g : Geom) (cid : string) (n : Z) (minx miny x_step y_step : Q).

Lemma systematic_inner_added (js : list Z) (i : Z) :
  forall plots self,
    plots_added (placed_in g cid) n plots self
      (fst (systematic_inner g cid n minx miny x_step y_step js i plots self))
      (snd (systematic_inner g cid n minx miny x_step y_step js i plots self)).
Proof.
  induction js as [|j js IH]; intros plots self; cbn [systematic_inner].
  - apply plots_added_refl.
  - destruct (enough plots n) eqn:En; [apply plots_added_refl|].
    destruct (contains g _) eqn:Ec; [|apply IH].
    destruct (next_plot_id self) as [pid self1] eqn:Eid.
    eapply plots_added_trans; [|apply IH].
    pose proof (plots_added_one g cid n plots self _ _ En Ec) as H.
    rewrite Eid in H. exact H.
Qed.

Lemma systematic_outer_added (is_ : list Z) (grid_size : Z) :
  forall plots self,
    plots_added (placed_in g cid) n plots self
      (fst (systematic_outer g cid n minx miny x_step y_step is_ grid_size plots self))
      (snd (systematic_outer g cid n minx miny x_step y_step is_ grid_size plots self)).
Proof.
  induction is_ as [|i is_ IH]; intros plots self; cbn [systematic_outer].
  - apply plots_added_refl.
  - pose proof (systematic_inner_added (range grid_size) i plots self) as Hin.
    destruct (systematic_inner _ _ _ _ _ _ _ _ _ _ _) as [plots1 self1].
    destruct (enough plots1 n); [exact Hin|].
    eapply plots_added_trans; [exact Hin|apply IH].
Qed.

End Systematic.

Lemma range_length (n : Z) : List.length (range n) = Z.to_nat n.
Proof. unfold range. now rewrite length_map, length_seq. Qed.

Section FullGrid.
Variables (g : Geom) (cid : string) (n : Z) (minx miny x_step y_step : Q).
Hypothesis Hn : (0 <= n)%Z.

(** When every candidate of a grid row lies in the polygon, the row is
    taken up to the requested count. *)
Lemma systematic_inner_full (js : list Z) (i : Z) :
  (forall j, In j js ->
     contains g (minx + (inject_Z i + 0.5) * x_step,
                 miny + (inject_Z j + 0.5) * y_step) = true) ->
  forall plots self,
    List.length (fst (systematic_inner g cid n minx miny x_step y_step js i plots self))
    = Nat.max (List.length plots)
              (Nat.min (Z.to_nat n) (List.length plots + List.length js)).
Proof.
  induction js as [|j js IH]; intros Hall plots self; cbn [systematic_inner].
  - cbn [fst List.length]. lia.
  - destruct (enough plots n) eqn:En.
    + cbn [fst]. unfold enough in En. lia.
    + rewrite (Hall j (or_introl eq_refl)).
      destruct (next_plot_id self) as [pid self1].
      rewrite IH by (intros j' Hj'; apply Hall; now right).
      rewrite length_app. cbn [List.length]. unfold enough in En. lia.
Qed.

Lemma systematic_outer_full (is_ : list Z) (grid_size : Z) :
  (forall i j, In i is_ -> In j (range grid_size) ->
     contains g (minx + (inject_Z i + 0.5) * x_step,
                 miny + (inject_Z j + 0.5) * y_step) = true) ->
  forall plots self,
    List.length (fst (systematic_outer g cid n minx miny x_step y_step is_ grid_size
                                       plots self))
    = Nat.max (List.length plots)
              (Nat.min (Z.to_nat n)
                       (List.length plots + List.length is_ * Z.to_nat grid_size)).
Proof.
  induction is_ as [|i is_ IH]; intros Hall plots self; cbn [systematic_outer].
  - cbn [fst List.length]. lia.
  - pose proof (systematic_inner_full (range grid_size) i
                  (fun j Hj => Hall i j (or_introl eq_refl) Hj) plots self) as Hin.
    rewrite range_length in Hin.
    destruct (systematic_inner _ _ _ _ _ _ _ _ _ _ _) as [plots1 self1].
    cbn [fst] in Hin. cbn [List.length]. rewrite Nat.mul_succ_l.
    destruct (enough plots1 n) eqn:En.
    + cbn [fst]. unfold enough in En. lia.
    + rewrite IH by (intros i' j Hi' Hj; apply Hall; [now right|exact Hj]).
      unfold enough in En. lia.
Qed.

End FullGrid.

(** When every cell centre of the grid lies in the polygon, the systematic
    placer returns exactly the requested number of plots. *)
Lemma systematic_full (g : Geom) (cid : string) (n : Z) (self : Self)
    (plots : list Plot) (self' : Self) :
  (forall i j, In i (range (Z.sqrt n + 1)) -> In j (range (Z.sqrt n + 1)) ->
     contains g (grid_point g n i j) = true) ->
  _generate_systematic_plots g cid n self = Ok (plots, self') ->
  Z.of_nat (List.length plots) = n.
Proof.
  unfold _generate_systematic_plots, grid_point.
  destruct (bounds g) as [[[minx miny] maxx] maxy].
  destruct (n <? 0)%Z eqn:En; [discriminate|]. intros Hall H. inversion H as [E].
  assert (Hn : (0 <= n)%Z) by lia.
  pose proof (systematic_outer_full g cid n minx miny
                ((maxx - minx) / inject_Z (Z.sqrt n + 1))
                ((maxy - miny) / inject_Z (Z.sqrt n + 1)) Hn
                (range (Z.sqrt n + 1)) (Z.sqrt n + 1) Hall [] self) as Hlen.
  rewrite E in Hlen. cbn [fst List.length] in Hlen. rewrite range_length in Hlen.
  pose proof (Z.sqrt_spec n Hn) as [_ Hs]. pose proof (Z.sqrt_nonneg n) as Hs0.
  assert (Hbig : (Z.to_nat n < Z.to_nat (Z.sqrt n + 1) * Z.to_nat (Z.sqrt n + 1))%nat)
    by nia.
  lia.
Qed.

Lemma systematic_added (g : Geom) (cid : string) (n : Z) (self : Self)
    (plots : list Plot) (self' : Self) :
  _generate_systematic_plots g cid n self = Ok (plots, self') ->
  (0 <= n)%Z /\ plots_added (placed_in g cid) n [] self plots self'.
Proof.
  unfold _generate_systematic_plots. destruct (bounds g) as [[[minx miny] maxx] maxy].
  destruct (n <? 0)%Z eqn:En; [discriminate|]. intro H. inversion H as [E].
  split; [lia|].
  pose proof (systematic_outer_added g cid n minx miny
                ((maxx - minx) / inject_Z (Z.sqrt n + 1))
                ((maxy - miny) / inject_Z (Z.sqrt n + 1))
                (range (Z.sqrt n + 1)) (Z.sqrt n + 1) [] self) as Hout.
  rewrite E in Hout. exact Hout.
Qed.

(** The attempt cap: [max_attempts - attempts] iterations are enough, and at
    most that many attempts (two draws each) are made. *)
Lemma random_loop_total (g : Geom) (cid : string) (n : Z) (minx miny maxx maxy : Q)
    (max_attempts : Z) (fuel : nat) :
  forall attempts plots self,
    (max_attempts - attempts <= Z.of_nat fuel)%Z ->
    exists plots' self',
      random_loop_fuel random_random fuel g cid n minx miny maxx maxy
                       max_attempts attempts plots self = Some (plots', self')
      /\ plots_added (placed_in g cid) n plots self plots' self'
      /\ (Z.of_nat (random_calls self' - random_calls self)
          <= 2 * Z.max 0 (max_attempts - attempts))%Z.
Proof.
  induction fuel as [|fuel IH]; intros attempts plots self Hfuel;
    cbn [random_loop_fuel];
    destruct (negb (enough plots n) && (attempts <? max_attempts)%Z) eqn:Econd;
    try (exists plots, self; split; [reflexivity|];
         split; [apply plots_added_refl|rewrite Nat.sub_diag; lia]).
  - apply andb_prop in Econd as [_ E]. lia.
  - apply andb_prop in Econd as [En Ea]. apply negb_true_iff in En.
    destruct (random_uniform random_random minx maxx self) as [x self1] eqn:E1.
    destruct (random_uniform random_random miny maxy self1) as [y self2] eqn:E2.
    apply random_uniform_state in E1 as [Hc1 Hr1].
    apply random_uniform_state in E2 as [Hc2 Hr2].
    destruct (contains g (x, y)) eqn:Ec.
    + pose proof (plots_added_one g cid n plots self2 x y En Ec) as Hone.
      pose proof (next_plot_id_state self2) as Hr3.
      destruct (next_plot_id self2) as [pid self3]. cbn [fst snd] in Hone, Hr3.
      destruct (IH (attempts + 1)%Z (plots ++ [make_plot pid cid x y])%list self3)
        as (plots' & self' & E & Hadd & Hcalls); [lia|].
      exists plots', self'. split; [exact E|]. split.
      * eapply plots_added_trans; [|exact Hadd].
        apply (plots_added_counter _ _ _ _ self self2); [congruence|exact Hone].
      * lia.
    + destruct (IH (attempts + 1)%Z plots self2) as (plots' & self' & E & Hadd & Hcalls);
        [lia|].
      exists plots', self'. split; [exact E|]. split.
      * apply (plots_added_counter _ _ _ _ self self2); [congruence|exact Hadd].
      * lia.
Qed.

Lemma random_added (g : Geom) (cid : string) (n : Z) (self : Self) :
  plots_added (placed_in g cid) n [] self
    (fst (_generate_random_plots random_random g cid n self))
    (snd (_generate_random_plots random_random g cid n self))
  /\ (Z.of_nat (random_calls (snd (_generate_random_plots random_random g cid n self))
                - random_calls self) <= 2 * Z.max 0 (n * 10))%Z.
Proof.
  unfold _generate_random_plots. destruct (bounds g) as [[[minx miny] maxx] maxy].
  destruct (random_loop_total g cid n minx miny maxx maxy (n * 10) (Z.to_nat (n * 10))
              0%Z [] self) as (plots' & self' & -> & Hadd & Hcalls); [lia|].
  rewrite Z.sub_0_r in Hcalls. split; assumption.
Qed.

Lemma compartment_added (g : Geom) (cid : string) (n : Z) (method : string)
    (self : Self) (plots : list Plot) (self' : Self) :
  _generate_plots_for_compartment random_random g cid n method self = Ok (plots, self') ->
  plots_added (placed_in g cid) n [] self plots self'.
Proof.
  unfold _generate_plots_for_compartment.
  destruct (String.eqb method "systematic"); intro H.
  - now apply systematic_added in H.
  - inversion H as [E]. pose proof (random_added g cid n self) as [Hadd _].
    rewrite E in Hadd. exact Hadd.
Qed.

Lemma plots_added_numbered (P : Plot -> Prop) (n : Z) (plots : list Plot) (self : Self)
    (plots' : list Plot) (self' : Self) :
  plots_added P n plots self plots' self' -> plots_numbered P plots self plots' self'.
Proof.
  intros (new & H1 & H2 & H3 & H4 & _). exists new. auto.
Qed.

Lemma for_each_row_numbered (intensity : Q) (minimum : Z) (method : string)
    (rows : list Row) :
  forall idx sample_plots self plots' self',
    for_each_row random_random rows idx intensity minimum method sample_plots self
    = Ok (plots', self') ->
    plots_numbered (owned rows idx) sample_plots self plots' self'.
Proof.
  induction rows as [|row rows IH]; intros idx sample_plots self plots' self' H;
    cbn [for_each_row] in H.
  - inversion H; subst. exists []. rewrite app_nil_r, Nat.add_0_r.
    repeat split; auto.
  - destruct (_generate_plots_for_compartment _ _ _ _ _ _) as [[plots1 self1]|] eqn:E1;
      [|discriminate].
    apply compartment_added, plots_added_numbered in E1.
    destruct E1 as (new1 & E1 & Hid1 & Hc1 & HP1). cbn [app] in E1. subst plots1.
    apply IH in H. destruct H as (new2 & -> & Hid2 & Hc2 & HP2).
    exists (new1 ++ new2)%list.
    rewrite <- app_assoc, map_app, length_app, plot_ids_app, Hid1, Hid2, Hc2, Hc1,
            Nat.add_assoc.
    repeat split. apply Forall_app. split.
    + eapply Forall_impl; [|exact HP1]. intros pl Hpl. exists O, row.
      rewrite Nat.add_0_r. split; [reflexivity|exact Hpl].
    + eapply Forall_impl; [|exact HP2]. intros pl (k & r & Hk & Hpl).
      exists (S k), r. rewrite Nat.add_succ_r. split; [exact Hk|exact Hpl].
Qed.

(** A request succeeds exactly when the frame has a row, the loop over the
    rows goes through and it placed a plot; it returns what the loop
    returns. *)
Lemma generate_sample_plots_ok (gdf : list Row) (intensity : Q) (minimum : Z)
    (method : string) (self : Self) (plots : list Plot) (self' : Self) :
  generate_sample_plots random_random gdf intensity minimum method self
  = Ok (plots, self')
  <-> gdf <> [] /\ plots <> []
      /\ for_each_row random_random gdf 0 intensity minimum method []
           {| plot_counter := 0; random_calls := random_calls self |}
         = Ok (plots, self').
Proof.
  unfold generate_sample_plots, reraise_value_error, GeoDataFrame.
  destruct gdf as [|row rows].
  - split; [discriminate|]. intros [H _]. now contradiction H.
  - destruct (for_each_row _ _ _ _ _ _ _ _) as [[plots1 self1]|e].
    + destruct plots1 as [|pl plots1].
      * split; [discriminate|]. intros (_ & Hne & E). inversion E; subst.
        now contradiction Hne.
      * split.
        -- intro H. inversion H; subst. repeat split; discriminate.
        -- intros (_ & _ & E). inversion E; subst. reflexivity.
    + split; [discriminate|]. intros (_ & _ & E). discriminate E.
Qed.

(** A request that fails raises a [ValueError]. *)
Lemma generate_sample_plots_raises (gdf : list Row) (intensity : Q) (minimum : Z)
    (method : string) (self : Self) (e : exn) :
  generate_sample_plots random_random gdf intensity minimum method self = Raise e ->
  exists msg, e = ValueError msg.
Proof.
  unfold generate_sample_plots, reraise_value_error.
  destruct gdf as [|row rows]; [intro H; inversion H; eauto|].
  destruct (for_each_row _ _ _ _ _ _ _ _) as [[plots1 self1]|e0].
  - destruct (GeoDataFrame plots1); intro H; inversion H; eauto.
  - intro H. inversion H. eauto.
Qed.

Lemma generate_sample_plots_numbered (gdf : list Row) (intensity : Q) (minimum : Z)
    (method : string) (self : Self) (plots : list Plot) (self' : Self) :
  generate_sample_plots random_random gdf intensity minimum method self
  = Ok (plots, self') ->
  map plot_id plots = plot_ids_from 0 (List.length plots)
  /\ plot_counter self' = List.length plots
  /\ Forall (owned gdf 0) plots.
Proof.
  intro H. apply generate_sample_plots_ok in H as (_ & _ & E).
  apply for_each_row_numbered in E.
  destruct E as (new & -> & Hid & Hc & HP). cbn [app plot_counter] in *. auto.
Qed.

(** X20: the number of plots requested for a compartment is at least the
    configured minimum, and the number generated never exceeds the number
    requested.  The systematic placer generates exactly the number
    requested when every cell centre of its grid lies in the polygon. *)
Theorem plots_within_plan (g : Geom) (cid : string) (intensity : Q) (minimum : Z)
    (method : string) (self : Self) (plots : list Plot) (self' : Self) :
  _generate_plots_for_compartment random_random g cid
      (planned_plots (area g) intensity minimum) method self = Ok (plots, self') ->
  (minimum <= planned_plots (area g) intensity minimum)%Z
  /\ (Z.of_nat (List.length plots)
      <= Z.max 0 (planned_plots (area g) intensity minimum))%Z
  /\ (method = "systematic" ->
      (forall i j,
         In i (range (Z.sqrt (planned_plots (area g) intensity minimum) + 1)) ->
         In j (range (Z.sqrt (planned_plots (area g) intensity minimum) + 1)) ->
         contains g (grid_point g (planned_plots (area g) intensity minimum) i j)
         = true) ->
      Z.of_nat (List.length plots) = planned_plots (area g) intensity minimum).
Proof.
  intro H. split; [unfold planned_plots; lia|]. split.
  - apply compartment_added in H.
    destruct H as (new & -> & _ & _ & _ & Hb). apply Hb. cbn. lia.
  - intros -> Hall. unfold _generate_plots_for_compartment in H.
    cbn [String.eqb Ascii.eqb Bool.eqb] in H. cbv iota beta in H.
    eapply systematic_full; eassumption.
Qed.

(** C5: every generated sample plot lies in the polygon of a compartment of
    the frame whose identifier it carries, whichever placement method is
    used ([contains] is the geometry library's test). *)
Theorem plot_containment (gdf : list Row) (intensity : Q) (minimum : Z)
    (method : string) (self : Self) (plots : list Plot) (self' : Self) :
  generate_sample_plots random_random gdf intensity minimum method self
  = Ok (plots, self') ->
  forall pl, In pl plots ->
    exists idx row, nth_error gdf idx = Some row
      /\ compartment_id pl = owner_id row idx
      /\ contains (row_geometry row) (geometry pl) = true.
Proof.
  intros H pl Hin. apply generate_sample_plots_numbered in H as (_ & _ & HP).
  rewrite Forall_forall in HP. destruct (HP pl Hin) as (k & row & Hk & Hid & Hc).
  exists k, row. auto.
Qed.

(** C6: the planner yields max(minimum, round(area * intensity / 10000)),
    where round yields a nearest integer; the count is at least the minimum;
    it is the count the sampling request asks the placer for; for area
    500000, intensity 0.02 and minimum 5 it is 5. *)
Theorem planner_count :
  (forall a i m, planned_plots a i m = Z.max m (py_round (a * i / 10000))
                 /\ Qabs (inject_Z (py_round (a * i / 10000)) - a * i / 10000) <= 1 # 2
                 /\ (m <= planned_plots a i m)%Z)
  /\ (forall row rows idx i m method acc self,
        for_each_row random_random (row :: rows) idx i m method acc self
        = match _generate_plots_for_compartment random_random (row_geometry row)
                  (owner_id row idx) (planned_plots (area (row_geometry row)) i m)
                  method self with
          | Raise e => Raise e
          | Ok (plots, self') =>
            for_each_row random_random rows (S idx) i m method (acc ++ plots) self'
          end)
  /\ planned_plots 500000 0.02 5 = 5%Z.
Proof.
  split; [|split].
  - intros a i m. unfold planned_plots.
    split; [reflexivity|]. split; [apply py_round_nearest|lia].
  - reflexivity.
  - reflexivity.
Qed.

(** C7: within one sampling request the plot identifiers come from one
    counter that runs on across the compartments: the plots carry exactly
    SP-01, SP-02, ... up to the total number of plots, in order, the number
    part zero-filled to at least two digits, without duplicates, and the
    counter ends at the total. *)
Theorem plot_numbering (gdf : list Row) (intensity : Q) (minimum : Z)
    (method : string) (self : Self) (plots : list Plot) (self' : Self) :
  generate_sample_plots random_random gdf intensity minimum method self
  = Ok (plots, self') ->
  map plot_id plots
  = map (fun i => "SP-" ++ format_02d i) (seq 1 (List.length plots))
  /\ (forall i, (2 <= String.length (format_02d i))%nat)
  /\ NoDup (map plot_id plots)
  /\ plot_counter self' = List.length plots.
Proof.
  intro H. apply generate_sample_plots_numbered in H as (Hid & Hc & _).
  split; [exact Hid|]. split; [exact format_02d_width|]. split; [|exact Hc].
  rewrite Hid. apply plot_ids_NoDup.
Qed.




End WithGeometry.
End SamplePlotFacts.

(** ** Termination of the two loops *)

Module Termination.
Import CompartmentGenerator SamplePlotGenerator.

Section WithGeometry.
Context {G : Geometry}.
Variable random_random : nat -> Q.

(** More fuel does not change the result of the bisection. *)
Lemma bisection_fuel_mono (fuel : nat) :
  forall p n t acc d r,
    _recursive_bisection_fuel fuel p n t acc d = Some r ->
    forall k, _recursive_bisection_fuel (fuel + k) p n t acc d = Some r.
Proof.
  induction fuel as [|fuel IH]; intros p n t acc d r H k; [discriminate|].
  cbn [_recursive_bisection_fuel Nat.add] in *.
  destruct (Z.of_nat (List.length acc) >=? n)%Z; [exact H|].
  destruct (small_enough p t d); [exact H|].
  destruct (_find_bisecting_line p t) as [line|]; [|exact H].
  destruct (_split_polygon p line) as [left_ right_].
  assert (Hright : forall acc1,
            match right_ with
            | Some r0 => if Qgtb (area r0) 0
                         then _recursive_bisection_fuel fuel r0 n t acc1 (d + 1)
                         else Some acc1
            | None => Some acc1
            end = Some r ->
            match right_ with
            | Some r0 => if Qgtb (area r0) 0
                         then _recursive_bisection_fuel (fuel + k) r0 n t acc1 (d + 1)
                         else Some acc1
            | None => Some acc1
            end = Some r).
  { intros acc1 E. destruct right_ as [r0|]; [|exact E].
    destruct (Qgtb (area r0) 0); [now apply IH|exact E]. }
  destruct (Qgtb (area left_) 0).
  - destruct (_recursive_bisection_fuel fuel left_ n t acc (d + 1)) as [acc1|] eqn:E1;
      [|discriminate].
    rewrite (IH _ _ _ _ _ _ E1 k). now apply Hright.
  - now apply Hright.
Qed.

(** More fuel does not change the result of the random placement loop. *)
Lemma random_loop_fuel_mono (g : Geom) (cid : string) (n : Z) (minx miny maxx maxy : Q)
    (max_attempts : Z) (fuel : nat) :
  forall attempts plots self r,
    random_loop_fuel random_random fuel g cid n minx miny maxx maxy
                     max_attempts attempts plots self = Some r ->
    forall k, random_loop_fuel random_random (fuel + k) g cid n minx miny maxx maxy
                               max_attempts attempts plots self = Some r.
Proof.
  induction fuel as [|fuel IH]; intros attempts plots self r H k.
  - cbn [random_loop_fuel] in H.
    destruct (negb (enough plots n) && (attempts <? max_attempts)%Z) eqn:Econd;
      [discriminate|].
    destruct k; cbn [random_loop_fuel Nat.add]; rewrite Econd; exact H.
  - cbn [random_loop_fuel Nat.add] in *.
    destruct (negb (enough plots n) && (attempts <? max_attempts)%Z); [|exact H].
    destruct (random_uniform random_random minx maxx self) as [x self1].
    destruct (random_uniform random_random miny maxy self1) as [y self2].
    destruct (contains g (x, y)).
    + destruct (next_plot_id self2) as [pid self3]. now apply IH.
    + now apply IH.
Qed.

(** C9: both loops terminate on every input.  The bisection never nests more
    than twelve calls from depth 0, because a call at a depth above 10
    accepts its polygon (or returns, once enough compartments exist) without
    splitting; the random placement loop ends within 10 * count attempts (two
    draws each).  More fuel changes neither result. *)
Theorem loops_terminate :
  (forall p n t k,
     _recursive_bisection_fuel (12 + k) p n t [] 0 = Some (_recursive_bisection p n t))
  /\ (forall fuel p n t acc d,
        _recursive_bisection_fuel (S fuel) p n t acc (11 + d)
        = Some (if (Z.of_nat (List.length acc) >=? n)%Z then acc
                else append_compartment acc p))
  /\ (forall g cid n self k,
        let '(minx, miny, maxx, maxy) := bounds g in
        random_loop_fuel random_random (Z.to_nat (n * 10) + k) g cid n
                         minx miny maxx maxy (n * 10) 0 [] self
        = Some (_generate_random_plots random_random g cid n self))
  /\ (forall g cid n self,
        (Z.of_nat (random_calls (snd (_generate_random_plots random_random g cid n self))
                   - random_calls self) <= 2 * Z.max 0 (10 * n))%Z).
Proof.
  split; [|split; [|split]].
  - intros p n t k. apply bisection_fuel_mono, CompartmentFacts.bisection_total.
  - intros fuel p n t acc d. apply CompartmentFacts.bisection_depth_cap. lia.
  - intros g cid n self k. unfold _generate_random_plots.
    destruct (bounds g) as [[[minx miny] maxx] maxy].
    destruct (SamplePlotFacts.random_loop_total random_random g cid n minx miny maxx maxy
                (n * 10) (Z.to_nat (n * 10)) 0%Z [] self)
      as (plots' & self' & E & _); [lia|].
    rewrite E. now apply random_loop_fuel_mono.
  - intros g cid n self.
    pose proof (SamplePlotFacts.random_added random_random g cid n self) as [_ H].
    lia.
Qed.

End WithGeometry.
End Termination.

(** ** The planar geometry on rectangles

    On rectangles the concrete geometry returns areas that are never
    negative and split pieces that fit in the rectangle split. *)

Module PlanarFacts.
Import Planar.

Lemma span_nonneg (lo hi : Q) : 0 <= span lo hi.
Proof.
  unfold span. destruct (Qltb lo hi) eqn:E; [apply Qltb_lt in E|]; lra.
Qed.

(** Two intervals side by side inside a third. *)
Lemma span_side_by_side (lo hi lo1 hi1 lo2 hi2 : Q) :
  lo <= lo1 -> hi1 <= hi -> lo <= lo2 -> hi2 <= hi -> hi1 <= lo2 ->
  span lo1 hi1 + span lo2 hi2 <= span lo hi.
Proof.
  intros H1 H2 H3 H4 H5. unfold span.
  destruct (Qltb lo1 hi1) eqn:E1, (Qltb lo2 hi2) eqn:E2, (Qltb lo hi) eqn:E;
    repeat match goal with
           | H : Qltb _ _ = true |- _ => apply Qltb_lt in H
           | H : Qltb _ _ = false |- _ => apply Qltb_ge in H
           end; lra.
Qed.

Lemma rect_area (p : Poly) :
  top p = None -> poly_area p == span (x0 p) (x1 p) * span (y0 p) (y1 p).
Proof.
  unfold poly_area, span. intros ->.
  destruct (Qltb (x0 p) (x1 p)), (Qltb (y0 p) (y1 p)); cbn [andb]; ring.
Qed.

Lemma rect_area_nonneg (p : Poly) : top p = None -> 0 <= poly_area p.
Proof.
  intro H. rewrite (rect_area p H). apply Qmult_le_0_compat; apply span_nonneg.
Qed.

(** Two rectangles side by side along x inside a third of the same height. *)
Lemma side_by_side_x (p a b : Poly) :
  top p = None -> top a = None -> top b = None ->
  y0 a = y0 p -> y1 a = y1 p -> y0 b = y0 p -> y1 b = y1 p ->
  x0 p <= x0 a -> x1 a <= x1 p -> x0 p <= x0 b -> x1 b <= x1 p -> x1 a <= x0 b ->
  poly_area a + poly_area b <= poly_area p.
Proof.
  intros Hp Ha Hb Ea0 Ea1 Eb0 Eb1 H1 H2 H3 H4 H5.
  rewrite (rect_area p Hp), (rect_area a Ha), (rect_area b Hb), Ea0, Ea1, Eb0, Eb1.
  rewrite <- Qmult_plus_distr_l. apply Qmult_le_compat_r; [|apply span_nonneg].
  now apply span_side_by_side.
Qed.

(** The same along y. *)
Lemma side_by_side_y (p a b : Poly) :
  top p = None -> top a = None -> top b = None ->
  x0 a = x0 p -> x1 a = x1 p -> x0 b = x0 p -> x1 b = x1 p ->
  y0 p <= y0 a -> y1 a <= y1 p -> y0 p <= y0 b -> y1 b <= y1 p -> y1 a <= y0 b ->
  poly_area a + poly_area b <= poly_area p.
Proof.
  intros Hp Ha Hb Ea0 Ea1 Eb0 Eb1 H1 H2 H3 H4 H5.
  rewrite (rect_area p Hp), (rect_area a Ha), (rect_area b Hb), Ea0, Ea1, Eb0, Eb1.
  rewrite <- Qmult_plus_distr_r.
  rewrite (Qmult_comm (span (x0 p) (x1 p)) (span (y0 a) (y1 a) + span (y0 b) (y1 b))),
          (Qmult_comm (span (x0 p) (x1 p)) (span (y0 p) (y1 p))).
  apply Qmult_le_compat_r; [|apply span_nonneg].
  now apply span_side_by_side.
Qed.

Ltac minmax :=
  cbn [x0 x1 y0 y1 top before_x after_x before_y after_y];
  repeat match goal with
         | |- context [Qmin ?u ?v] =>
           lazymatch goal with
           | _ : Qmin u v <= u |- _ => fail
           | _ => pose proof (Q.le_min_l u v); pose proof (Q.le_min_r u v)
           end
         | |- context [Qmax ?u ?v] =>
           lazymatch goal with
           | _ : u <= Qmax u v |- _ => fail
           | _ => pose proof (Q.le_max_l u v); pose proof (Q.le_max_r u v)
           end
         end;
  lra.

(** Any two of the three strips along x fit in the rectangle. *)
Lemma strips_x_fit (p : Poly) (a b : Q) :
  top p = None -> a <= b ->
  let s0 := before_x p a in
  let s1 := before_x (after_x p a) b in
  let s2 := after_x p b in
  poly_area s0 + poly_area s2 <= poly_area p
  /\ poly_area s0 + poly_area s1 <= poly_area p
  /\ poly_area s2 + poly_area s1 <= poly_area p.
Proof.
  intros Hp Hab. cbv zeta. repeat split.
  - apply side_by_side_x; try assumption; try reflexivity; minmax.
  - apply side_by_side_x; try assumption; try reflexivity; minmax.
  - rewrite Qplus_comm.
    apply side_by_side_x; try assumption; try reflexivity; minmax.
Qed.

(** Any two of the three strips along y fit in the rectangle. *)
Lemma strips_y_fit (p : Poly) (a b : Q) :
  top p = None -> a <= b ->
  let s0 := before_y p a in
  let s1 := before_y (after_y p a) b in
  let s2 := after_y p b in
  poly_area s0 + poly_area s2 <= poly_area p
  /\ poly_area s0 + poly_area s1 <= poly_area p
  /\ poly_area s2 + poly_area s1 <= poly_area p.
Proof.
  intros Hp Hab. cbv zeta. repeat split.
  - apply side_by_side_y; try assumption; try reflexivity; minmax.
  - apply side_by_side_y; try assumption; try reflexivity; minmax.
  - rewrite Qplus_comm.
    apply side_by_side_y; try assumption; try reflexivity; minmax.
Qed.

(** The first two of the pieces with an interior, in the order
    before / inside / after, fit in the rectangle. *)
Lemma first_two_fit (p s0 s1 s2 : Poly) (g0 g1 : geom) (rest : list geom) :
  top s0 = None -> top s1 = None -> top s2 = None ->
  poly_area s0 + poly_area s2 <= poly_area p ->
  poly_area s0 + poly_area s1 <= poly_area p ->
  poly_area s2 + poly_area s1 <= poly_area p ->
  map Polygon (filter (fun s => Qgtb (poly_area s) 0) [s0; s1; s2]) = g0 :: g1 :: rest ->
  rectangle g0 /\ rectangle g1
  /\ @area Examples.planar g0 + @area Examples.planar g1 <= poly_area p.
Proof.
  intros H0 H1 H2 H02 H01 H21 E. cbn [filter] in E.
  destruct (Qgtb (poly_area s0) 0), (Qgtb (poly_area s1) 0), (Qgtb (poly_area s2) 0);
    cbn [map] in E; inversion E; subst;
    (split; [eexists; split; [reflexivity|assumption]|]);
    (split; [eexists; split; [reflexivity|assumption]|]);
    cbn [area Examples.planar geometry]; rewrite !Qred_correct;
    first [assumption|rewrite Qplus_comm; assumption].
Qed.

Lemma planar_area_nonneg (g : geom) : rectangle g -> 0 <= @area Examples.planar g.
Proof.
  intros (p & -> & Hp). cbn [area Examples.planar geometry].
  rewrite Qred_correct. now apply rect_area_nonneg.
Qed.

Lemma planar_split_fits (g line g0 g1 : geom) (rest : list geom) :
  rectangle g -> @split Examples.planar g line = Some (g0 :: g1 :: rest) ->
  rectangle g0 /\ rectangle g1
  /\ @area Examples.planar g0 + @area Examples.planar g1 <= @area Examples.planar g.
Proof.
  intros (p & -> & Hp) H. cbn [split Examples.planar geometry] in H.
  unfold geom_split in H. destruct line as [|q|]; try discriminate.
  destruct (strips p q) as [ss|] eqn:Es; [|discriminate].
  inversion H as [E]. clear H.
  change (@area Examples.planar (Polygon p)) with (Qred (poly_area p)).
  rewrite (Qred_correct (poly_area p)).
  unfold strips in Es. destruct (poly_bounds p) as [[[minx miny] maxx] maxy].
  destruct (top q); [discriminate|].
  destruct (Qle_bool (x0 q) (x1 q) && Qle_bool (y0 q) (y1 q)) eqn:Eq; [|discriminate].
  apply andb_prop in Eq as [Hx Hy]. apply Qle_bool_iff in Hx, Hy.
  destruct (Qltb (y0 q) miny && Qltb maxy (y1 q)).
  - inversion Es. subst ss. cbn [map nth] in E.
    destruct (strips_x_fit p (x0 q) (x1 q) Hp Hx) as (H02 & H01 & H21).
    eapply first_two_fit; [| | | exact H02 | exact H01 | exact H21 | exact E]; exact Hp.
  - destruct (Qltb (x0 q) minx && Qltb maxx (x1 q)); [|discriminate].
    inversion Es. subst ss. cbn [map nth] in E.
    destruct (strips_y_fit p (y0 q) (y1 q) Hp Hy) as (H02 & H01 & H21).
    eapply first_two_fit; [| | | exact H02 | exact H01 | exact H21 | exact E]; exact Hp.
Qed.

End PlanarFacts.

(** ** Runs on concrete inputs *)

Module ConcreteRuns.
Import Planar Examples CompartmentGenerator SamplePlotGenerator.

(** The square of the unit tests cut in four: the compartments are C1, C2,
    C3. *)
Lemma sequential_numbering_square :
  @generate_compartments planar square 4 = Ok square_4
  /\ (map (@CompartmentGenerator.row_compartment_id planar) square_4
      = compartment_ids (List.length square_4)
      /\ NoDup (map (@CompartmentGenerator.row_compartment_id planar) square_4)
      /\ (forall i id,
            nth_error (map (@CompartmentGenerator.row_compartment_id planar) square_4) i
            = Some id -> id = "C" ++ str (i + 1))).
Proof.
  split; [reflexivity|].
  apply (@CompartmentFacts.sequential_numbering planar square 4 square_4).
  reflexivity.
Defined.

(** C2: the code breaks the 5% balance of its own docstrings and tests.
    On the square of the unit tests cut in four the partition has three
    compartments of areas 24.9985, 0.002 and 0.002, each more than 5% off
    their mean; validation warns for each of them and the partition is
    returned all the same.  On the trapezoid cut in two, whatever the order
    of the pieces, the partition has two compartments and the first one is
    more than 5% off the mean. *)
Theorem area_balance_broken :
  (@generate_compartments planar square 4 = Ok square_4
   /\ map (@row_area planar) square_4 = [49997 # 2000; 1 # 500; 1 # 500]
   /\ Forall (fun a => ~ within 0.05 a (np_mean (map (@row_area planar) square_4)))
             (map (@row_area planar) square_4)
   /\ @_validate_compartments planar square_4_compartments 25 = ["C1"; "C2"; "C3"])
  /\ Forall (fun order =>
               is_ok (@generate_compartments (Planar.geometry order) trapezoid 2) = true
               /\ List.length (areas_of order trapezoid 2) = 2%nat
               /\ ~ within 0.05 (hd 0 (areas_of order trapezoid 2))
                                (np_mean (areas_of order trapezoid 2)))
            orders.
Proof.
  split.
  - split; [reflexivity|]. split; [reflexivity|]. split; [|reflexivity].
    repeat (constructor; [apply Qlt_not_le; vm_cast_no_check (@eq_refl comparison Lt)|]).
    constructor.
  - unfold orders.
    repeat (constructor;
            [split; [reflexivity|];
             split; [vm_cast_no_check (@eq_refl nat 2%nat)|];
             apply Qlt_not_le; vm_cast_no_check (@eq_refl comparison Lt)|]).
    constructor.
Qed.

(** The claim of C3 fails on the square, whatever the order of the pieces:
    cut in three, the traversal stops with more than 99% of the area
    unassigned; cut in two, the third piece of the split is dropped. *)
Lemma area_lost_on_square :
  Forall (fun order =>
            is_ok (@generate_compartments (Planar.geometry order) square 3) = true
            /\ ~ within (1 # 1000000) (Qsum (areas_of order square 3))
                        (area_of order square)
            /\ Qsum (areas_of order square 3) < (1 # 100) * area_of order square
            /\ is_ok (@generate_compartments (Planar.geometry order) square 2) = true
            /\ ~ within (1 # 1000000) (Qsum (areas_of order square 2))
                        (area_of order square))
         orders.
Proof.
  unfold orders.
  repeat (constructor;
          [split; [reflexivity|];
           split; [apply Qlt_not_le; vm_cast_no_check (@eq_refl comparison Lt)|];
           split; [vm_cast_no_check (@eq_refl comparison Lt)|];
           split; [reflexivity|];
           apply Qlt_not_le; vm_cast_no_check (@eq_refl comparison Lt)|]).
  constructor.
Qed.

(** On the square cut in four the areas sum to at most the area of the
    square. *)
Lemma area_not_duplicated_square :
  @shape planar square
  = Some (Polygon {| x0 := 0; y0 := 0; x1 := 10; y1 := 10; top := None |})
  /\ @generate_compartments planar square 4 = Ok square_4
  /\ Qsum (map (@row_area planar) square_4)
     <= @area planar (Polygon {| x0 := 0; y0 := 0; x1 := 10; y1 := 10; top := None |}).
Proof.
  split; [reflexivity|]. split; [reflexivity|].
  apply (@CompartmentFacts.area_not_duplicated planar rectangle
           PlanarFacts.planar_area_nonneg PlanarFacts.planar_split_fits
           square _ 4 square_4).
  - reflexivity.
  - eexists. split; reflexivity.
  - reflexivity.
Defined.

(** C4: the code breaks the minimum of its own docstring and tests.  The
    triangle is owed five plots; the systematic request places three, the
    cell centres of its 3 x 3 grid that lie in the triangle.  The random
    placer, when every draw misses, gives up after 50 attempts (100 draws)
    with no plot, and the request then fails. *)
Theorem plot_minimum_fails_on_triangle :
  @shape planar triangle = Some triangle_polygon
  /\ planned_plots (@area planar triangle_polygon) 0.02 5 = 5%Z
  /\ @generate_sample_plots planar draws one_triangle 0.02 5 "systematic" fresh
     = Ok triangle_systematic
  /\ List.length (fst triangle_systematic) = 3%nat
  /\ @_generate_random_plots planar high_draws triangle_polygon "C1" 5 fresh
     = triangle_random
  /\ List.length (fst triangle_random) = 0%nat
  /\ random_calls (snd triangle_random) = 100%nat
  /\ is_ok (@generate_sample_plots planar high_draws one_triangle 0.02 5 "random" fresh)
     = false.
Proof.
  repeat split; reflexivity.
Qed.

(** A 50 x 50 compartment: five plots are owed, every cell centre of the
    3 x 3 grid lies in it, and five plots are placed. *)
Lemma plots_within_plan_box :
  @_generate_plots_for_compartment planar draws box_50 "C1"
      (planned_plots (@area planar box_50) 0.02 5) "systematic" fresh
  = Ok box_50_systematic
  /\ (5 <= planned_plots (@area planar box_50) 0.02 5)%Z
  /\ (Z.of_nat (List.length (fst box_50_systematic))
      <= Z.max 0 (planned_plots (@area planar box_50) 0.02 5))%Z
  /\ Z.of_nat (List.length (fst box_50_systematic))
     = planned_plots (@area planar box_50) 0.02 5.
Proof.
  split; [reflexivity|].
  destruct (@SamplePlotFacts.plots_within_plan planar draws box_50 "C1" 0.02 5
              "systematic" fresh (fst box_50_systematic) (snd box_50_systematic)
              eq_refl) as (Hmin & Hmax & Hfull).
  split; [exact Hmin|]. split; [exact Hmax|].
  apply Hfull; [reflexivity|].
  intros i j Hi Hj. vm_compute in Hi, Hj.
  destruct Hi as [<-|[<-|[<-|[]]]]; destruct Hj as [<-|[<-|[<-|[]]]]; reflexivity.
Defined.

(** Two compartments, random placement: every plot lies in its compartment. *)
Lemma plot_containment_two_boxes :
  @generate_sample_plots planar draws two_boxes 0.02 5 "random" fresh
  = Ok two_boxes_random
  /\ (forall pl, In pl (fst two_boxes_random) ->
        exists idx row, nth_error two_boxes idx = Some row
          /\ compartment_id pl = owner_id row idx
          /\ @contains planar (@SamplePlotGenerator.row_geometry planar row)
                       (geometry pl) = true).
Proof.
  split; [reflexivity|].
  apply (@SamplePlotFacts.plot_containment planar draws two_boxes 0.02 5 "random"
           fresh (fst two_boxes_random) (snd two_boxes_random)).
  reflexivity.
Defined.

(** Two compartments, grid placement: the plots are SP-01, ..., SP-10. *)
Lemma plot_numbering_two_boxes :
  @generate_sample_plots planar draws two_boxes 0.02 5 "systematic" fresh
  = Ok two_boxes_systematic
  /\ (map plot_id (fst two_boxes_systematic)
      = map (fun i => "SP-" ++ format_02d i)
            (seq 1 (List.length (fst two_boxes_systematic)))
      /\ (forall i, (2 <= String.length (format_02d i))%nat)
      /\ NoDup (map plot_id (fst two_boxes_systematic))
      /\ plot_counter (snd two_boxes_systematic)
         = List.length (fst two_boxes_systematic)).
Proof.
  split; [reflexivity|].
  apply (@SamplePlotFacts.plot_numbering planar draws two_boxes 0.02 5 "systematic"
           fresh (fst two_boxes_systematic) (snd two_boxes_systematic)).
  reflexivity.
Defined.

(** The claim of C8 fails on the square with -1 compartments requested: the
    polygon is valid, the count is below 1, and an empty frame is returned
    instead of an error. *)
Lemma negative_count_not_rejected :
  (exists g, @shape planar square = Some g /\ @is_valid planar g = true)
  /\ (-1 < 1)%Z
  /\ @generate_compartments planar square (-1) = Ok [].
Proof.
  split; [eexists; split; reflexivity|]. split; [lia|]. reflexivity.
Qed.

(** The square with no compartment requested is rejected; with -1
    compartments requested it yields an empty frame. *)
Lemma partition_rejects_zero :
  (@shape planar square = None
   \/ (exists g, @shape planar square = Some g /\ @is_valid planar g = false)
   \/ 0%Z = 0%Z)
  /\ (exists msg, @generate_compartments planar square 0 = Raise (ValueError msg))
  /\ @generate_compartments planar square (-1) = Ok [].
Proof.
  split; [right; right; reflexivity|]. split.
  - apply (proj1 (@CompartmentFacts.partition_rejects planar square 0)).
    right. right. reflexivity.
  - apply (proj2 (@CompartmentFacts.partition_rejects planar square (-1))).
    + eexists. split; reflexivity.
    + reflexivity.
Defined.



End ConcreteRuns.

(** * Further properties *)

(** ** The bisection *)

Module BisectionFacts.
Import CompartmentGenerator.

Section WithGeometry.
Context {G : Geometry}.

Lemma bisection_fuel_count (n : Z) (t : Q) (fuel : nat) :
  forall p acc d r,
    (Z.of_nat (List.length acc) <= Z.max 0 n)%Z ->
    _recursive_bisection_fuel fuel p n t acc d = Some r ->
    (Z.of_nat (List.length r) <= Z.max 0 n)%Z.
Proof.
  induction fuel as [|fuel IH]; intros p acc d r Hacc Hr; [discriminate|].
  cbn [_recursive_bisection_fuel] in Hr.
  destruct (Z.of_nat (List.length acc) >=? n)%Z eqn:En;
    [inversion Hr; subst; exact Hacc|].
  assert (Hone : (Z.of_nat (List.length (append_compartment acc p)) <= Z.max 0 n)%Z).
  { unfold append_compartment. rewrite length_app. cbn [List.length]. lia. }
  destruct (small_enough p t d); [inversion Hr; subst; exact Hone|].
  destruct (_find_bisecting_line p t) as [line|]; [|inversion Hr; subst; exact Hone].
  destruct (_split_polygon p line) as [left_ right_].
  assert (Hright : forall acc1, (Z.of_nat (List.length acc1) <= Z.max 0 n)%Z ->
            match right_ with
            | Some r0 => if Qgtb (area r0) 0
                         then _recursive_bisection_fuel fuel r0 n t acc1 (d + 1)
                         else Some acc1
            | None => Some acc1
            end = Some r -> (Z.of_nat (List.length r) <= Z.max 0 n)%Z).
  { intros acc1 H1 E. destruct right_ as [r0|]; [|inversion E; subst; assumption].
    destruct (Qgtb (area r0) 0);
      [exact (IH r0 acc1 (d + 1)%nat r H1 E)|inversion E; subst; assumption]. }
  destruct (Qgtb (area left_) 0).
  - destruct (_recursive_bisection_fuel fuel left_ n t acc (d + 1)) as [acc1|] eqn:E1;
      [|discriminate].
    apply (Hright acc1); [exact (IH left_ acc (d + 1)%nat acc1 Hacc E1)|exact Hr].
  - apply (Hright acc); assumption.
Qed.

(** X1: the partition never holds more compartments than were requested. *)
Theorem compartment_count_bounded (boundary : GeoJSON) (n : Z) (rows : list GdfRow) :
  generate_compartments boundary n = Ok rows ->
  (Z.of_nat (List.length rows) <= Z.max 0 n)%Z.
Proof.
  intro H. apply CompartmentFacts.generate_compartments_ok in H as (g & _ & _ & _ & ->).
  unfold _create_compartment_geodataframe. rewrite length_map.
  apply (bisection_fuel_count n (area g / inject_Z n) 12 g [] 0).
  - cbn. lia.
  - apply CompartmentFacts.bisection_total.
Qed.

Lemma bisection_fuel_positive (n : Z) (t : Q) (fuel : nat) :
  forall p acc d r,
    _recursive_bisection_fuel fuel p n t acc d = Some r ->
    exists new, r = (acc ++ new)%list
                /\ Forall (fun c : Compartment => fst c = p \/ 0 < area (fst c)) new.
Proof.
  induction fuel as [|fuel IH]; intros p acc d r Hr; [discriminate|].
  cbn [_recursive_bisection_fuel] in Hr.
  assert (Hnone : exists new : list Compartment, acc = (acc ++ new)%list
            /\ Forall (fun c : Compartment => fst c = p \/ 0 < area (fst c)) new).
  { exists []. rewrite app_nil_r. split; [reflexivity|constructor]. }
  assert (Hone : exists new : list Compartment,
            append_compartment acc p = (acc ++ new)%list
            /\ Forall (fun c : Compartment => fst c = p \/ 0 < area (fst c)) new).
  { eexists. split; [reflexivity|]. repeat constructor. }
  assert (Hrec : forall q acc0 r0,
            (if Qgtb (area q) 0
             then _recursive_bisection_fuel fuel q n t acc0 (d + 1)
             else Some acc0) = Some r0 ->
            exists new : list Compartment, r0 = (acc0 ++ new)%list
              /\ Forall (fun c : Compartment => 0 < area (fst c)) new).
  { intros q acc0 r0 E. destruct (Qgtb (area q) 0) eqn:Eq.
    - apply IH in E as (new & -> & Hnew). exists new. split; [reflexivity|].
      eapply Forall_impl; [|exact Hnew]. intros c [Hc|Hc]; [|exact Hc].
      rewrite Hc. unfold Qgtb in Eq. now apply Qltb_lt in Eq.
    - inversion E; subst. exists []. rewrite app_nil_r. split; [reflexivity|constructor]. }
  destruct (Z.of_nat (List.length acc) >=? n)%Z; [inversion Hr; subst; exact Hnone|].
  destruct (small_enough p t d); [inversion Hr; subst; exact Hone|].
  destruct (_find_bisecting_line p t) as [line|]; [|inversion Hr; subst; exact Hone].
  destruct (_split_polygon p line) as [left_ right_].
  destruct (if Qgtb (area left_) 0
            then _recursive_bisection_fuel fuel left_ n t acc (d + 1)
            else Some acc) as [acc1|] eqn:E1; [|discriminate].
  apply Hrec in E1 as (new1 & -> & H1).
  assert (E2 : exists new2 : list Compartment, r = ((acc ++ new1) ++ new2)%list
            /\ Forall (fun c : Compartment => 0 < area (fst c)) new2).
  { destruct right_ as [r0|].
    - apply (Hrec r0). exact Hr.
    - inversion Hr; subst. exists []. rewrite app_nil_r. split; [reflexivity|constructor]. }
  destruct E2 as (new2 & -> & H2).
  exists (new1 ++ new2)%list. rewrite app_assoc. split; [reflexivity|].
  apply Forall_app. split; (eapply Forall_impl; [|eassumption]); intros c Hc; now right.
Qed.

(** X2: no piece without area becomes a compartment: every compartment of a
    partition is the boundary polygon itself or has a positive area. *)
Theorem compartments_have_area (boundary : GeoJSON) (n : Z) (rows : list GdfRow) :
  generate_compartments boundary n = Ok rows ->
  forall row, In row rows ->
    shape boundary = Some (row_geometry row) \/ 0 < row_area row.
Proof.
  intro H. apply CompartmentFacts.generate_compartments_ok in H as (g & Hs & _ & _ & ->).
  destruct (bisection_fuel_positive n (area g / inject_Z n) 12 g [] 0 _
              (CompartmentFacts.bisection_total g n (area g / inject_Z n)))
    as (new & E & Hnew).
  cbn [app] in E. rewrite E. intros row Hin.
  unfold _create_compartment_geodataframe in Hin. apply in_map_iff in Hin.
  destruct Hin as (c & <- & Hc). rewrite Forall_forall in Hnew.
  cbn [row_geometry row_area]. destruct (Hnew c Hc) as [Hroot|Hpos].
  - left. now rewrite Hroot.
  - now right.
Qed.

Lemma bisection_fuel_uncut (p : Geom) (n : Z) (t : Q) (fuel : nat) :
  (0 < n)%Z -> 0 < area p -> uncut p t ->
  forall d, (1 <= fuel)%nat -> (12 <= fuel + d)%nat ->
    _recursive_bisection_fuel fuel p n t [] d = Some [(p, "C1")].
Proof.
  intros Hn Hp Hcut. induction fuel as [|fuel IH]; intros d H1 H12; [lia|].
  cbn [_recursive_bisection_fuel List.length].
  destruct (Z.of_nat 0 >=? n)%Z eqn:En; [cbn in En; lia|].
  destruct (small_enough p t d) eqn:Esmall; [reflexivity|].
  destruct (_find_bisecting_line p t) as [line|] eqn:Eline; [|reflexivity].
  assert (Hd : (d <= 10)%nat).
  { unfold small_enough in Esmall. apply orb_false_elim in Esmall.
    destruct Esmall as [_ E]. apply Nat.ltb_ge in E. exact E. }
  assert (Esplit : _split_polygon p line = (p, None)).
  { unfold _split_polygon. specialize (Hcut line Eline).
    destruct (split p line) as [[|g0 [|g1 rest]]|]; try reflexivity. contradiction. }
  rewrite Esplit. apply Qltb_lt in Hp. unfold Qgtb. rewrite Hp.
  rewrite IH by lia. reflexivity.
Qed.

(** X3: a polygon of positive area that its cutting line does not cut in
    two is bisected again and again without effect and, at the depth cap at
    the latest, accepted whole as the only compartment. *)
Theorem uncut_polygon_accepted_whole (p : Geom) (n : Z) (t : Q) :
  (0 < n)%Z -> 0 < area p -> uncut p t ->
  _recursive_bisection p n t = [(p, "C1")].
Proof.
  intros Hn Hp Hcut. unfold _recursive_bisection.
  rewrite (bisection_fuel_uncut p n t 12 Hn Hp Hcut 0) by lia. reflexivity.
Qed.

End WithGeometry.
End BisectionFacts.

(** ** The sample plot placers *)

Module SamplingFacts.
Import SamplePlotGenerator.

Section WithGeometry.
Context {G : Geometry}.
Variable random_random : nat -> Q.

Lemma systematic_is_ok (g : Geom) (cid : string) (n : Z) (self : Self) :
  is_ok (_generate_systematic_plots g cid n self) = negb (n <? 0)%Z.
Proof.
  unfold _generate_systematic_plots. destruct (bounds g) as [[[minx miny] maxx] maxy].
  destruct (n <? 0)%Z; reflexivity.
Qed.

Lemma for_each_row_systematic_ok (intensity : Q) (minimum : Z) (rows : list Row) :
  forall idx acc self,
    is_ok (for_each_row random_random rows idx intensity minimum "systematic" acc self)
    = true
    <-> Forall (fun row =>
                  (0 <= planned_plots (area (row_geometry row)) intensity minimum)%Z)
               rows.
Proof.
  induction rows as [|row rows IH]; intros idx acc self; cbn [for_each_row].
  - split; [constructor|reflexivity].
  - unfold _generate_plots_for_compartment. cbn [String.eqb Ascii.eqb Bool.eqb].
    cbv iota beta.
    pose proof (systematic_is_ok (row_geometry row)
                  match row_compartment_id row with
                  | Some id => id
                  | None => "C" ++ str (idx + 1)
                  end
                  (planned_plots (area (row_geometry row)) intensity minimum) self)
      as Hok.
    destruct (_generate_systematic_plots _ _ _ _) as [[plots self1]|e].
    + rewrite IH. cbn [is_ok] in Hok. symmetry in Hok. apply negb_true_iff in Hok.
      split; intro H; [constructor; [lia|exact H]|now inversion H].
    + cbn [is_ok] in Hok. symmetry in Hok. apply negb_false_iff in Hok.
      split; intro H; [discriminate H|]. inversion H. lia.
Qed.

(** A systematic request that succeeds had a row, and no count owed was
    negative. *)
Lemma systematic_request_ok (gdf : list Row) (intensity : Q) (minimum : Z)
    (self : Self) (r : list Plot * Self) :
  generate_sample_plots random_random gdf intensity minimum "systematic" self = Ok r ->
  gdf <> []
  /\ Forall (fun row =>
               (0 <= planned_plots (area (row_geometry row)) intensity minimum)%Z)
            gdf.
Proof.
  destruct r as [plots self']. intro H.
  apply SamplePlotFacts.generate_sample_plots_ok in H as (Hne & _ & E).
  split; [exact Hne|].
  apply (for_each_row_systematic_ok intensity minimum gdf 0 []
           {| plot_counter := 0; random_calls := random_calls self |}).
  now rewrite E.
Qed.

(** X4: a systematic sampling request fails with a [ValueError] when the
    frame is empty and when the count owed to some compartment is negative
    (a negative minimum with a negative rounded share of the area). *)
Theorem systematic_request_fails (gdf : list Row) (intensity : Q) (minimum : Z)
    (self : Self) :
  gdf = []
  \/ Exists (fun row =>
               (planned_plots (area (row_geometry row)) intensity minimum < 0)%Z) gdf ->
  exists msg,
    generate_sample_plots random_random gdf intensity minimum "systematic" self
    = Raise (ValueError msg).
Proof.
  intro H.
  destruct (generate_sample_plots random_random gdf intensity minimum "systematic" self)
    as [r|e] eqn:E.
  - exfalso. apply systematic_request_ok in E as [Hne Hall].
    destruct H as [H|H]; [contradiction|].
    apply Exists_exists in H as (row & Hin & Hneg).
    rewrite Forall_forall in Hall. specialize (Hall row Hin). lia.
  - apply SamplePlotFacts.generate_sample_plots_raises in E as [msg ->]. eauto.
Qed.

(** When every attempt hits the polygon the random loop takes one attempt
    per plot still owed. *)
Lemma random_loop_all_hit (g : Geom) (cid : string) (n : Z) (max_attempts : Z) (k : nat) :
  forall fuel attempts plots self,
    (Z.of_nat (List.length plots) + Z.of_nat k = n)%Z ->
    (attempts + Z.of_nat k <= max_attempts)%Z ->
    (k <= fuel)%nat ->
    (forall t, (t < k)%nat ->
       contains g (attempt_point random_random g (random_calls self) t) = true) ->
    let '(minx, miny, maxx, maxy) := bounds g in
    exists plots' self',
      random_loop_fuel random_random fuel g cid n minx miny maxx maxy
                       max_attempts attempts plots self = Some (plots', self')
      /\ Z.of_nat (List.length plots') = n
      /\ random_calls self' = (random_calls self + 2 * k)%nat.
Proof.
  unfold attempt_point. destruct (bounds g) as [[[minx miny] maxx] maxy].
  induction k as [|k IH]; intros fuel attempts plots self Hlen Hatt Hfuel Hhit.
  - exists plots, self.
    assert (E : enough plots n = true) by (unfold enough; lia).
    destruct fuel; cbn [random_loop_fuel]; rewrite E; cbn [negb andb];
      (split; [reflexivity|split; [lia|lia]]).
  - destruct fuel as [|fuel]; [lia|]. cbn [random_loop_fuel].
    assert (E : enough plots n = false) by (unfold enough; lia).
    assert (Ea : (attempts <? max_attempts)%Z = true) by lia.
    rewrite E, Ea. cbn [negb andb]. unfold random_uniform at 1 2.
    cbn [random_calls plot_counter].
    pose proof (Hhit 0%nat ltac:(lia)) as H0.
    rewrite Nat.mul_0_r, Nat.add_0_r in H0. rewrite Nat.add_1_r in H0. rewrite H0.
    cbn [next_plot_id random_calls plot_counter].
    match goal with
    | |- exists _ _, random_loop_fuel _ _ _ _ _ _ _ _ _ _ _ ?pl ?sf = _ /\ _ =>
      destruct (IH fuel (attempts + 1)%Z pl sf) as (plots' & self' & El & Hn & Hc)
    end.
    + rewrite length_app. cbn [List.length]. lia.
    + lia.
    + lia.
    + intros t Ht. cbn [random_calls]. specialize (Hhit (S t) ltac:(lia)).
      replace (S (S (random_calls self)) + 2 * t)%nat
        with (random_calls self + 2 * S t)%nat by lia.
      exact Hhit.
    + exists plots', self'. split; [exact El|]. split; [exact Hn|].
      cbn [random_calls] in Hc. lia.
Qed.

(** X5: when the points drawn by the first [num_plots] attempts all lie in
    the polygon, the random placer returns exactly [num_plots] plots and
    makes exactly two draws per plot. *)
Theorem random_placer_all_hit (g : Geom) (cid : string) (n : Z) (self : Self) :
  (0 <= n)%Z ->
  (forall t, (t < Z.to_nat n)%nat ->
     contains g (attempt_point random_random g (random_calls self) t) = true) ->
  Z.of_nat (List.length (fst (_generate_random_plots random_random g cid n self))) = n
  /\ random_calls (snd (_generate_random_plots random_random g cid n self))
     = (random_calls self + 2 * Z.to_nat n)%nat.
Proof.
  intros Hn Hhit.
  pose proof (random_loop_all_hit g cid n (n * 10) (Z.to_nat n)
                (Z.to_nat (n * 10)) 0%Z [] self) as H.
  unfold _generate_random_plots. destruct (bounds g) as [[[minx miny] maxx] maxy].
  destruct H as (plots' & self' & -> & H1 & H2); try (cbn [List.length]; lia).
  - exact Hhit.
  - split; assumption.
Qed.

Section Kept.
Variable Keep : Plot -> Prop.
Hypothesis Hmade : forall plot_id cid x y, Keep (make_plot plot_id cid x y).

Lemma Forall_snoc (plots : list Plot) (pl : Plot) :
  Forall Keep plots -> Keep pl -> Forall Keep (plots ++ [pl]).
Proof. intros H1 H2. apply Forall_app. split; [exact H1|now constructor]. Qed.

Lemma systematic_inner_kept (g : Geom) (cid : string) (n : Z)
    (minx miny x_step y_step : Q) (js : list Z) (i : Z) :
  forall plots self,
    Forall Keep plots ->
    Forall Keep
      (fst (systematic_inner g cid n minx miny x_step y_step js i plots self)).
Proof.
  induction js as [|j js IH]; intros plots self H; cbn [systematic_inner];
    [exact H|].
  destruct (enough plots n); [exact H|].
  destruct (contains g _); [|now apply IH].
  destruct (next_plot_id self) as [pid self1]. apply IH. now apply Forall_snoc.
Qed.

Lemma systematic_outer_kept (g : Geom) (cid : string) (n : Z)
    (minx miny x_step y_step : Q) (is_ : list Z) (grid_size : Z) :
  forall plots self,
    Forall Keep plots ->
    Forall Keep
      (fst (systematic_outer g cid n minx miny x_step y_step is_ grid_size plots self)).
Proof.
  induction is_ as [|i is_ IH]; intros plots self H; cbn [systematic_outer];
    [exact H|].
  pose proof (systematic_inner_kept g cid n minx miny x_step y_step
                (range grid_size) i plots self H) as Hin.
  destruct (systematic_inner _ _ _ _ _ _ _ _ _ _ _) as [plots1 self1].
  destruct (enough plots1 n); [exact Hin|]. now apply IH.
Qed.

Lemma random_loop_kept (g : Geom) (cid : string) (n : Z) (minx miny maxx maxy : Q)
    (max_attempts : Z) (fuel : nat) :
  forall attempts plots self r,
    Forall Keep plots ->
    random_loop_fuel random_random fuel g cid n minx miny maxx maxy
                     max_attempts attempts plots self = Some r ->
    Forall Keep (fst r).
Proof.
  induction fuel as [|fuel IH]; intros attempts plots self r H E;
    cbn [random_loop_fuel] in E;
    destruct (negb (enough plots n) && (attempts <? max_attempts)%Z);
    try discriminate; try (inversion E; subst; exact H).
  destruct (random_uniform random_random minx maxx self) as [x self1].
  destruct (random_uniform random_random miny maxy self1) as [y self2].
  destruct (contains g (x, y)).
  - destruct (next_plot_id self2) as [pid self3].
    eapply IH; [|exact E]. now apply Forall_snoc.
  - eapply IH; [exact H|exact E].
Qed.

Lemma compartment_kept (g : Geom) (cid : string) (n : Z) (method : string)
    (self : Self) (plots : list Plot) (self' : Self) :
  _generate_plots_for_compartment random_random g cid n method self = Ok (plots, self') ->
  Forall Keep plots.
Proof.
  unfold _generate_plots_for_compartment, _generate_systematic_plots,
         _generate_random_plots.
  destruct (bounds g) as [[[minx miny] maxx] maxy].
  destruct (String.eqb method "systematic").
  - destruct (n <? 0)%Z; [discriminate|]. intro H. inversion H as [E].
    change plots with (fst (plots, self')). rewrite <- E.
    apply systematic_outer_kept. constructor.
  - destruct (SamplePlotFacts.random_loop_total random_random g cid n minx miny maxx maxy
                (n * 10) (Z.to_nat (n * 10)) 0%Z [] self) as (plots' & self1 & E & _);
      [lia|].
    rewrite E. intro H. inversion H. subst.
    apply (random_loop_kept g cid n minx miny maxx maxy (n * 10) _ _ _ _ _
             (Forall_nil Keep) E).
Qed.

Lemma for_each_row_kept (intensity : Q) (minimum : Z) (method : string)
    (rows : list Row) :
  forall idx acc self plots self',
    Forall Keep acc ->
    for_each_row random_random rows idx intensity minimum method acc self
    = Ok (plots, self') ->
    Forall Keep plots.
Proof.
  induction rows as [|row rows IH]; intros idx acc self plots self' Hacc H;
    cbn [for_each_row] in H.
  - inversion H; subst. exact Hacc.
  - destruct (_generate_plots_for_compartment _ _ _ _ _ _) as [[plots1 self1]|] eqn:E1;
      [|discriminate].
    apply compartment_kept in E1. eapply IH; [|exact H].
    apply Forall_app. split; assumption.
Qed.

End Kept.

(** X6: in every plot of a sampling request the point is
    (longitude, latitude): the two coordinates are never swapped. *)
Theorem plot_coordinates_agree (gdf : list Row) (intensity : Q) (minimum : Z)
    (method : string) (self : Self) (plots : list Plot) (self' : Self) :
  generate_sample_plots random_random gdf intensity minimum method self
  = Ok (plots, self') ->
  Forall coordinates_agree plots.
Proof.
  intro H. apply SamplePlotFacts.generate_sample_plots_ok in H as (_ & _ & E).
  apply (for_each_row_kept coordinates_agree) in E; [exact E| |constructor].
  intros pid cid x y. reflexivity.
Qed.

(** Sampling a frame made of two parts is sampling the first part and going
    on with the second. *)
Lemma for_each_row_app (intensity : Q) (minimum : Z) (method : string)
    (rows1 rows2 : list Row) :
  forall idx acc self,
    for_each_row random_random (rows1 ++ rows2) idx intensity minimum method acc self
    = match for_each_row random_random rows1 idx intensity minimum method acc self with
      | Raise e => Raise e
      | Ok (plots, self') =>
        for_each_row random_random rows2 (idx + List.length rows1) intensity minimum
                     method plots self'
      end.
Proof.
  induction rows1 as [|row rows1 IH]; intros idx acc self.
  - cbn [app for_each_row List.length]. now rewrite Nat.add_0_r.
  - change ((row :: rows1) ++ rows2)%list with (row :: (rows1 ++ rows2))%list.
    cbn [for_each_row].
    destruct (_generate_plots_for_compartment _ _ _ _ _ _) as [[plots1 self1]|];
      [|reflexivity].
    rewrite IH. cbn [List.length]. now rewrite Nat.add_succ_r.
Qed.

(** X7: rows appended to a frame do not change the plots of the rows before
    them: when the request on the shorter frame and the request on the
    longer frame both succeed, the longer one returns the plots of the
    shorter one followed by the plots of the appended rows, numbered on
    from there. *)
Theorem appended_rows_extend_plots (rows1 rows2 : list Row) (intensity : Q)
    (minimum : Z) (method : string) (self : Self)
    (plots1 : list Plot) (self1 : Self) (plots : list Plot) (self' : Self) :
  generate_sample_plots random_random rows1 intensity minimum method self
  = Ok (plots1, self1) ->
  generate_sample_plots random_random (rows1 ++ rows2) intensity minimum method self
  = Ok (plots, self') ->
  exists new,
    plots = (plots1 ++ new)%list
    /\ map plot_id new = plot_ids_from (List.length plots1) (List.length new).
Proof.
  intros H1 H.
  apply SamplePlotFacts.generate_sample_plots_ok in H1 as (_ & _ & E1).
  apply SamplePlotFacts.generate_sample_plots_ok in H as (_ & _ & E).
  rewrite for_each_row_app, E1 in E.
  apply SamplePlotFacts.for_each_row_numbered in E1 as (new1 & E1 & _ & Hc1 & _).
  apply SamplePlotFacts.for_each_row_numbered in E as (new & -> & Hid & _).
  exists new. split; [reflexivity|]. rewrite Hid, Hc1. cbn [plot_counter Nat.add].
  cbn [app] in E1. now rewrite E1.
Qed.

(** X8: when no plot is owed to a compartment, the placer places no plot,
    draws no number and does not raise: the random placer for every count
    of 0 or less, the systematic placer for the count 0.  The result is the
    empty list and the state is unchanged. *)
Theorem no_plot_owed (g : Geom) (cid : string) (n : Z) (method : string) (self : Self) :
  (n <= 0)%Z -> (method = "systematic" -> n = 0%Z) ->
  _generate_plots_for_compartment random_random g cid n method self = Ok ([], self).
Proof.
  intros Hn Hsys.
  unfold _generate_plots_for_compartment, _generate_systematic_plots,
         _generate_random_plots.
  destruct (bounds g) as [[[minx miny] maxx] maxy].
  destruct (String.eqb method "systematic") eqn:E.
  - apply String.eqb_eq in E. rewrite (Hsys E). reflexivity.
  - replace (Z.to_nat (n * 10)) with 0%nat by lia. cbn [random_loop_fuel].
    unfold enough. cbn [List.length].
    destruct (Z.of_nat 0 >=? n)%Z eqn:En; [reflexivity|]. cbn in En. lia.
Qed.

End WithGeometry.
End SamplingFacts.

(** ** The statistics of compartments *)

Module CompartmentStatisticsFacts.
Import CompartmentStatistics.

Lemma fold_min_le (xs : list Q) : forall x, fold_left Qmin xs x <= x.
Proof.
  induction xs as [|y ys IH]; intro x; cbn [fold_left]; [apply Qle_refl|].
  eapply Qle_trans; [apply IH|apply Q.le_min_l].
Qed.

Lemma fold_min_lower (xs : list Q) :
  forall x y, In y (x :: xs) -> fold_left Qmin xs x <= y.
Proof.
  induction xs as [|z zs IH]; intros x y Hin; cbn [fold_left].
  - destruct Hin as [<-|[]]. apply Qle_refl.
  - destruct Hin as [<-|[<-|Hin]].
    + eapply Qle_trans; [apply fold_min_le|apply Q.le_min_l].
    + eapply Qle_trans; [apply fold_min_le|apply Q.le_min_r].
    + apply IH. now right.
Qed.

Lemma fold_min_in (xs : list Q) : forall x, In (fold_left Qmin xs x) (x :: xs).
Proof.
  induction xs as [|z zs IH]; intro x; cbn [fold_left]; [now left|].
  destruct (IH (Qmin x z)) as [E|Hin]; [|right; now right].
  rewrite <- E. unfold Qmin, GenericMinMax.gmin.
  destruct (x ?= z); [left|left|right; left]; reflexivity.
Qed.

Lemma fold_max_ge (xs : list Q) : forall x, x <= fold_left Qmax xs x.
Proof.
  induction xs as [|y ys IH]; intro x; cbn [fold_left]; [apply Qle_refl|].
  eapply Qle_trans; [apply Q.le_max_l|apply IH].
Qed.

Lemma fold_max_upper (xs : list Q) :
  forall x y, In y (x :: xs) -> y <= fold_left Qmax xs x.
Proof.
  induction xs as [|z zs IH]; intros x y Hin; cbn [fold_left].
  - destruct Hin as [<-|[]]. apply Qle_refl.
  - destruct Hin as [<-|[<-|Hin]].
    + eapply Qle_trans; [apply Q.le_max_l|apply fold_max_ge].
    + eapply Qle_trans; [apply Q.le_max_r|apply fold_max_ge].
    + apply IH. now right.
Qed.

Lemma fold_max_in (xs : list Q) : forall x, In (fold_left Qmax xs x) (x :: xs).
Proof.
  induction xs as [|z zs IH]; intro x; cbn [fold_left]; [now left|].
  destruct (IH (Qmax x z)) as [E|Hin]; [|right; now right].
  rewrite <- E. unfold Qmax, GenericMinMax.gmax.
  destruct (x ?= z); [left|right; left|left]; reflexivity.
Qed.

Lemma Qsum_lower (lo : Q) (xs : list Q) :
  (forall x, In x xs -> lo <= x) ->
  inject_Z (Z.of_nat (List.length xs)) * lo <= Qsum xs.
Proof.
  unfold Qsum. induction xs as [|x xs IH]; intro H.
  - change (inject_Z (Z.of_nat (List.length (@nil Q)))) with 0. cbn [fold_right]. lra.
  - cbn [List.length fold_right]. rewrite Nat2Z.inj_succ. unfold Z.succ.
    rewrite inject_Z_plus. change (inject_Z 1) with 1.
    pose proof (H x (or_introl eq_refl)). pose proof (IH (fun y Hy => H y (or_intror Hy))).
    lra.
Qed.

Lemma Qsum_upper (hi : Q) (xs : list Q) :
  (forall x, In x xs -> x <= hi) ->
  Qsum xs <= inject_Z (Z.of_nat (List.length xs)) * hi.
Proof.
  unfold Qsum. induction xs as [|x xs IH]; intro H.
  - change (inject_Z (Z.of_nat (List.length (@nil Q)))) with 0. cbn [fold_right]. lra.
  - cbn [List.length fold_right]. rewrite Nat2Z.inj_succ. unfold Z.succ.
    rewrite inject_Z_plus. change (inject_Z 1) with 1.
    pose proof (H x (or_introl eq_refl)). pose proof (IH (fun y Hy => H y (or_intror Hy))).
    lra.
Qed.

Lemma length_positive {A} (x : A) (xs : list A) :
  0 < inject_Z (Z.of_nat (List.length (x :: xs))).
Proof.
  change 0 with (inject_Z 0). rewrite <- Zlt_Qlt. cbn [List.length]. lia.
Qed.

Lemma np_mean_bounds (lo hi : Q) (x : Q) (xs : list Q) :
  (forall y, In y (x :: xs) -> lo <= y) -> (forall y, In y (x :: xs) -> y <= hi) ->
  lo <= np_mean (x :: xs) <= hi.
Proof.
  intros Hlo Hhi. unfold np_mean. pose proof (length_positive x xs) as Hn.
  split.
  - apply Qle_shift_div_l; [exact Hn|]. rewrite Qmult_comm. now apply Qsum_lower.
  - apply Qle_shift_div_r; [exact Hn|]. rewrite Qmult_comm. now apply Qsum_upper.
Qed.

Lemma np_mean_total (x : Q) (xs : list Q) :
  Qsum (x :: xs) == inject_Z (Z.of_nat (List.length (x :: xs))) * np_mean (x :: xs).
Proof.
  unfold np_mean. pose proof (length_positive x xs) as Hn. field. lra.
Qed.

Lemma Qsum_zero_iff (xs : list Q) :
  (forall x, In x xs -> 0 <= x) ->
  0 <= Qsum xs /\ (Qsum xs == 0 <-> forall x, In x xs -> x == 0).
Proof.
  unfold Qsum. induction xs as [|x xs IH]; intro H; cbn [fold_right].
  - split; [lra|]. split; [intros _ y []|reflexivity].
  - pose proof (H x (or_introl eq_refl)) as Hx.
    destruct (IH (fun y Hy => H y (or_intror Hy))) as [Hs [H1 H2]].
    split; [lra|]. split.
    + intros E y [<-|Hy]; [lra|]. apply H1; [lra|exact Hy].
    + intro Hall. pose proof (Hall x (or_introl eq_refl)).
      pose proof (H2 (fun y Hy => Hall y (or_intror Hy))). lra.
Qed.

Lemma square_nonneg (d : Q) : 0 <= d * d.
Proof. nra. Qed.

Lemma square_zero (d : Q) : d * d == 0 <-> d == 0.
Proof.
  split; intro E; [|rewrite E; ring].
  destruct (Qmult_integral _ _ E); assumption.
Qed.

Lemma np_var_zero_iff (x : Q) (xs : list Q) :
  0 <= np_var (x :: xs)
  /\ (np_var (x :: xs) == 0 <-> forall y, In y (x :: xs) -> y == np_mean (x :: xs)).
Proof.
  unfold np_var. cbv zeta. set (m := np_mean (x :: xs)).
  set (sq := map (fun y => (y - m) * (y - m)) (x :: xs)).
  assert (Hsq : forall y, In y sq -> 0 <= y).
  { intros y Hy. apply in_map_iff in Hy as (z & <- & _). apply square_nonneg. }
  destruct (Qsum_zero_iff sq Hsq) as [Hs [H1 H2]].
  assert (Hn : 0 < inject_Z (Z.of_nat (List.length sq))).
  { unfold sq. rewrite length_map. apply length_positive. }
  assert (Hmean : np_mean sq == 0 <-> Qsum sq == 0).
  { unfold np_mean. split; intro E.
    - assert (E' : Qsum sq == Qsum sq / inject_Z (Z.of_nat (List.length sq))
                               * inject_Z (Z.of_nat (List.length sq))) by (field; lra).
      rewrite E' , E. ring.
    - rewrite E. field. lra. }
  split.
  - unfold np_mean. apply Qle_shift_div_l; [exact Hn|]. lra.
  - rewrite Hmean. split.
    + intros E y Hy. apply H1 with (x := (y - m) * (y - m)) in E.
      * apply (proj1 (square_zero _)) in E. lra.
      * unfold sq. apply in_map_iff. eauto.
    + intro Hall. apply H2. intros y Hy. unfold sq in Hy.
      apply in_map_iff in Hy as (z & <- & Hz). apply square_zero.
      pose proof (Hall z Hz). fold m in H. lra.
Qed.

Section WithGeometry.
Context {G : Geometry}.
Variable np_sqrt : Q -> Q.

Lemma statistics_ok (gdf : list CompartmentGenerator.GdfRow) (st : Stats) :
  get_compartment_statistics np_sqrt gdf = Ok st ->
  exists a rest,
    map (fun r => area (CompartmentGenerator.row_geometry r)) gdf = a :: rest
    /\ st = {| num_compartments := List.length gdf;
               total_area := Qsum (a :: rest);
               mean_area := np_mean (a :: rest);
               min_area := fold_left Qmin rest a;
               max_area := fold_left Qmax rest a;
               std_area := np_std np_sqrt (a :: rest);
               area_variance := np_var (a :: rest) |}.
Proof.
  unfold get_compartment_statistics, reraise_value_error.
  destruct (map (fun r => area (CompartmentGenerator.row_geometry r)) gdf) as [|a rest] eqn:E; cbn [np_min np_max]; [discriminate|].
  intro H. inversion H. eauto.
Qed.

(** X9: the statistics of compartments fail with a [ValueError] on the
    empty frame, and only there; otherwise the number of compartments
    reported is the number of rows. *)
Theorem compartment_statistics_empty (gdf : list CompartmentGenerator.GdfRow) :
  (gdf = [] -> exists msg, get_compartment_statistics np_sqrt gdf = Raise (ValueError msg))
  /\ (gdf <> [] -> exists st, get_compartment_statistics np_sqrt gdf = Ok st
                             /\ num_compartments st = List.length gdf).
Proof.
  unfold get_compartment_statistics, reraise_value_error. split.
  - intros ->. cbn. eauto.
  - intro Hne. destruct gdf as [|row rows]; [contradiction|].
    cbn [map np_min np_max]. eexists. split; reflexivity.
Qed.

(** X10: in the statistics of a frame the smallest and the largest area are
    areas of rows, every area and the mean lie between them, and the total
    is the number of rows times the mean. *)
Theorem compartment_statistics_order (gdf : list CompartmentGenerator.GdfRow)
    (st : Stats) :
  get_compartment_statistics np_sqrt gdf = Ok st ->
  In (min_area st) (map (fun r => area (CompartmentGenerator.row_geometry r)) gdf)
  /\ In (max_area st) (map (fun r => area (CompartmentGenerator.row_geometry r)) gdf)
  /\ (forall row, In row gdf ->
        min_area st <= area (CompartmentGenerator.row_geometry row) <= max_area st)
  /\ min_area st <= mean_area st <= max_area st
  /\ total_area st == inject_Z (Z.of_nat (num_compartments st)) * mean_area st.
Proof.
  intro H. apply statistics_ok in H as (a & rest & E & ->).
  cbn [min_area max_area mean_area total_area num_compartments]. rewrite E.
  split; [apply fold_min_in|]. split; [apply fold_max_in|]. split; [|split].
  - intros row Hin.
    assert (Ha : In (area (CompartmentGenerator.row_geometry row)) (a :: rest)).
    { rewrite <- E. apply in_map_iff. eauto. }
    split; [now apply fold_min_lower|now apply fold_max_upper].
  - apply np_mean_bounds; intros y Hy;
      [now apply fold_min_lower|now apply fold_max_upper].
  - rewrite <- (length_map (fun r => area (CompartmentGenerator.row_geometry r)) gdf), E.
    apply np_mean_total.
Qed.

(** X11: the variance reported for a frame is never negative, and it is
    zero exactly when every row has the mean area, that is when the
    compartments have equal areas. *)
Theorem compartment_variance_zero (gdf : list CompartmentGenerator.GdfRow)
    (st : Stats) :
  get_compartment_statistics np_sqrt gdf = Ok st ->
  0 <= area_variance st
  /\ (area_variance st == 0 <->
      forall row, In row gdf ->
        area (CompartmentGenerator.row_geometry row) == mean_area st).
Proof.
  intro H. apply statistics_ok in H as (a & rest & E & ->).
  cbn [area_variance mean_area].
  destruct (np_var_zero_iff a rest) as [Hpos [H1 H2]].
  split; [exact Hpos|]. split.
  - intros Hz row Hin. apply H1; [exact Hz|]. rewrite <- E. apply in_map_iff. eauto.
  - intro Hall. apply H2. intros y Hy. rewrite <- E in Hy.
    apply in_map_iff in Hy as (row & <- & Hin). now apply Hall.
Qed.

End WithGeometry.
End CompartmentStatisticsFacts.

(** ** The statistics of sample plots *)

Module SamplePlotStatisticsFacts.
Import SamplePlotStatistics.

Lemma string_lt_trans (a b c : string) : string_lt a b -> string_lt b c -> string_lt a c.
Proof.
  unfold string_lt. intros H1 H2.
  apply OrderedTypeEx.String_as_OT.cmp_lt.
  apply (OrderedTypeEx.String_as_OT.lt_trans a b c);
    apply OrderedTypeEx.String_as_OT.cmp_lt; assumption.
Qed.

Lemma string_lt_irrefl (a : string) : ~ string_lt a a.
Proof.
  unfold string_lt. intro H.
  pose proof (String.compare_antisym a a) as E. rewrite H in E. discriminate.
Qed.

Lemma string_gt_lt (a b : string) : String.compare a b = Gt -> string_lt b a.
Proof.
  unfold string_lt. intro H. rewrite String.compare_antisym, H. reflexivity.
Qed.

Lemma bump_keys (id : string) (counts : list (string * nat)) (k : string) :
  In k (map fst (bump id counts)) -> k = id \/ In k (map fst counts).
Proof.
  induction counts as [|[k0 c0] rest IH]; cbn [bump map fst In].
  - intros [<-|[]]. now left.
  - destruct (String.compare id k0) eqn:E; cbn [map fst In].
    + tauto.
    + intros [<-|H]; [now left|now right].
    + intros [<-|H]; [right; now left|]. destruct (IH H); [now left|right; now right].
Qed.

Lemma bump_sorted (id : string) (counts : list (string * nat)) :
  keys_increase counts -> keys_increase (bump id counts).
Proof.
  unfold keys_increase. induction counts as [|[k0 c0] rest IH]; cbn [bump map fst]; intro H.
  - repeat constructor.
  - inversion H as [|a l Hrest Hall]; subst.
    destruct (String.compare id k0) eqn:E; cbn [map fst].
    + exact H.
    + constructor; [exact H|]. constructor; [exact E|].
      eapply Forall_impl; [|exact Hall]. intros k Hk. now apply (string_lt_trans id k0 k).
    + constructor; [now apply IH|]. apply Forall_forall. intros k Hk.
      apply bump_keys in Hk as [->|Hk]; [now apply string_gt_lt|].
      rewrite Forall_forall in Hall. now apply Hall.
Qed.

Lemma bump_positive (id : string) (counts : list (string * nat)) :
  counts_positive counts -> counts_positive (bump id counts).
Proof.
  unfold counts_positive. induction counts as [|[k0 c0] rest IH]; cbn [bump]; intro H.
  - repeat constructor.
  - inversion H as [|a l H0 Hrest]; subst. cbn [snd] in H0.
    destruct (String.compare id k0); repeat constructor; cbn [snd]; auto; lia.
Qed.

Lemma bump_sum (id : string) (counts : list (string * nat)) :
  list_sum (map snd (bump id counts)) = S (list_sum (map snd counts)).
Proof.
  unfold list_sum. induction counts as [|[k0 c0] rest IH]; cbn [bump]; [reflexivity|].
  destruct (String.compare id k0); cbn [map snd fold_right]; [reflexivity|reflexivity|].
  rewrite IH. lia.
Qed.

Lemma bump_length (id : string) (counts : list (string * nat)) :
  (1 <= List.length (bump id counts))%nat.
Proof.
  destruct counts as [|[k0 c0] rest]; cbn [bump]; [cbn; lia|].
  destruct (String.compare id k0); cbn [List.length]; lia.
Qed.

Lemma count_for_absent (id : string) (counts : list (string * nat)) :
  ~ In id (map fst counts) -> count_for id counts = 0%nat.
Proof.
  unfold count_for. induction counts as [|[k0 c0] rest IH]; cbn [find map fst In];
    intro H; [reflexivity|].
  destruct (String.eqb k0 id) eqn:E.
  - apply String.eqb_eq in E. tauto.
  - apply IH. tauto.
Qed.

Lemma sorted_head_absent (k : string) (keys : list string) (id : string) :
  Forall (string_lt k) keys -> (id = k \/ string_lt id k) -> ~ In id keys.
Proof.
  intros Hall Hid Hin. rewrite Forall_forall in Hall. specialize (Hall id Hin).
  destruct Hid as [->|Hid].
  - now apply (string_lt_irrefl k).
  - apply (string_lt_irrefl id). now apply (string_lt_trans id k id).
Qed.

Lemma bump_count_for (id : string) (counts : list (string * nat)) (k : string) :
  keys_increase counts ->
  count_for k (bump id counts)
  = ((if String.eqb k id then 1 else 0) + count_for k counts)%nat.
Proof.
  unfold keys_increase.
  induction counts as [|[k0 c0] rest IH]; cbn [bump map fst]; intro H.
  - unfold count_for. cbn [find fst]. rewrite (String.eqb_sym id k).
    destruct (String.eqb k id); reflexivity.
  - inversion H as [|a l Hrest Hall]; subst.
    destruct (String.compare id k0) eqn:E.
    + apply String.compare_eq_iff in E. subst k0.
      unfold count_for. cbn [find fst]. rewrite (String.eqb_sym id k).
      destruct (String.eqb k id); [reflexivity|]. cbn [Nat.add]. reflexivity.
    + unfold count_for at 1. cbn [find fst]. rewrite (String.eqb_sym id k).
      destruct (String.eqb k id) eqn:Ek.
      * apply String.eqb_eq in Ek. subst k.
        rewrite (count_for_absent id ((k0, c0) :: rest)); [reflexivity|].
        cbn [map fst]. intros [E0|Hin].
        -- subst k0. now apply (string_lt_irrefl id).
        -- now apply (sorted_head_absent k0 (map fst rest) id Hall (or_intror E)).
      * reflexivity.
    + unfold count_for. cbn [find fst]. destruct (String.eqb k0 k) eqn:Ek0.
      * apply String.eqb_eq in Ek0. subst k0.
        destruct (String.eqb k id) eqn:Ek; [|reflexivity].
        apply String.eqb_eq in Ek. subst k.
        pose proof (String.compare_antisym id id) as Ea. rewrite E in Ea. discriminate.
      * apply (IH Hrest).
Qed.

Lemma count_for_in (counts : list (string * nat)) (id : string) (c : nat) :
  keys_increase counts -> In (id, c) counts -> count_for id counts = c.
Proof.
  unfold keys_increase, count_for.
  induction counts as [|[k0 c0] rest IH]; cbn [map fst find In]; intros H Hin; [contradiction|].
  inversion H as [|a l Hrest Hall]; subst.
  destruct Hin as [E|Hin].
  - inversion E; subst. rewrite String.eqb_refl. reflexivity.
  - destruct (String.eqb k0 id) eqn:Ek; [|now apply IH].
    apply String.eqb_eq in Ek. subst k0. exfalso.
    apply (sorted_head_absent id (map fst rest) id Hall (or_introl eq_refl)).
    apply in_map_iff. exists (id, c). split; [reflexivity|exact Hin].
Qed.


Lemma groupby_fold (ids : list string) :
  forall counts,
    keys_increase counts -> counts_positive counts ->
    let r := fold_left (fun counts id => bump id counts) ids counts in
    keys_increase r /\ counts_positive r
    /\ (forall k, count_for k r
                  = (count_for k counts + List.length (filter (String.eqb k) ids))%nat)
    /\ list_sum (map snd r) = (list_sum (map snd counts) + List.length ids)%nat
    /\ (ids <> [] \/ counts <> [] -> r <> []).
Proof.
  induction ids as [|id ids IH]; intros counts Hs Hp; cbn [fold_left filter List.length].
  - cbv zeta. repeat split; auto; intros; try lia. tauto.
  - destruct (IH (bump id counts) (bump_sorted id counts Hs) (bump_positive id counts Hp))
      as (H1 & H2 & H3 & H4 & H5).
    cbv zeta. split; [exact H1|]. split; [exact H2|]. split; [|split].
    + intro k. rewrite H3, (bump_count_for id counts k Hs).
      destruct (String.eqb k id); cbn [List.length]; lia.
    + rewrite H4, bump_sum. lia.
    + intros _. apply H5. right. pose proof (bump_length id counts) as Hl.
      intro E. rewrite E in Hl. cbn in Hl. lia.
Qed.

Lemma filter_ids (id : string) (gdf : list SamplePlotGenerator.Plot) :
  List.length (filter (String.eqb id) (map SamplePlotGenerator.compartment_id gdf))
  = plots_in id gdf.
Proof.
  unfold plots_in. induction gdf as [|p gdf IH]; cbn [map filter]; [reflexivity|].
  rewrite (String.eqb_sym id). destruct (String.eqb _ id); cbn [List.length]; now rewrite IH.
Qed.

Lemma statistics_groups (gdf : list SamplePlotGenerator.Plot) :
  let counts := groupby_size (map SamplePlotGenerator.compartment_id gdf) in
  keys_increase counts /\ counts_positive counts
  /\ (forall id, count_for id counts = plots_in id gdf)
  /\ list_sum (map snd counts) = List.length gdf
  /\ (gdf <> [] -> counts <> []).
Proof.
  cbv zeta. unfold groupby_size.
  destruct (groupby_fold (map SamplePlotGenerator.compartment_id gdf) [])
    as (H1 & H2 & H3 & H4 & H5); [constructor|constructor|].
  split; [exact H1|]. split; [exact H2|]. split; [|split].
  - intro id. rewrite H3. unfold count_for at 1. cbn [find]. apply filter_ids.
  - rewrite H4, length_map. reflexivity.
  - intro Hne. apply H5. left. destruct gdf; [contradiction|discriminate].
Qed.

(** On a frame with a plot the statistics are computed, from the groups of
    the compartment ids. *)
Lemma sample_statistics_value (gdf : list SamplePlotGenerator.Plot) :
  gdf <> [] ->
  get_sample_plot_statistics gdf
  = Ok (let compartment_stats :=
          groupby_size (map SamplePlotGenerator.compartment_id gdf) in
        {| total_plots := List.length gdf;
           plots_per_compartment := compartment_stats;
           min_plots := min_or_zero (map snd compartment_stats);
           max_plots := max_or_zero (map snd compartment_stats);
           avg_plots := match compartment_stats with
                        | [] => 0
                        | _ => inject_Z (Z.of_nat (List.length gdf))
                               / inject_Z (Z.of_nat (List.length compartment_stats))
                        end |}).
Proof.
  destruct gdf as [|pl gdf]; [intro H; now contradiction H|reflexivity].
Qed.

Lemma sample_statistics_ok (gdf : list SamplePlotGenerator.Plot) (st : Stats) :
  get_sample_plot_statistics gdf = Ok st -> gdf <> [].
Proof.
  destruct gdf as [|pl gdf]; [discriminate|discriminate].
Qed.








End SamplePlotStatisticsFacts.

(** ** One compartment, and sampling on the grid *)

Module WholeFacts.
Section WithGeometry.
Context {G : Geometry}.

(** X14: when one compartment is requested of a valid boundary of positive
    area, the partition is the boundary polygon itself, as C1. *)
Theorem single_compartment_is_boundary (boundary : GeoJSON) (g : Geom) :
  shape boundary = Some g -> is_valid g = true -> 0 < area g ->
  CompartmentGenerator.generate_compartments boundary 1
  = Ok [{| CompartmentGenerator.row_compartment_id := "C1";
           CompartmentGenerator.row_area := area g;
           CompartmentGenerator.row_geometry := g |}].
Proof.
  intros Hs Hv Hpos.
  unfold CompartmentGenerator.generate_compartments, reraise_value_error.
  rewrite Hs, Hv. cbn [negb Z.eqb].
  rewrite CompartmentFacts.bisection_accepts_whole; [reflexivity|lia|].
  assert (E : area g - area g / inject_Z 1 == 0) by (change (inject_Z 1) with 1; field).
  assert (E1 : area g / inject_Z 1 == area g) by (change (inject_Z 1) with 1; field).
  rewrite E, E1. change (Qabs 0) with 0. lra.
Qed.

Lemma systematic_inner_draws (g : Geom) (cid : string) (n : Z) (minx miny xs ys : Q)
    (js : list Z) (i : Z) :
  forall plots self,
    SamplePlotGenerator.random_calls
      (snd (SamplePlotGenerator.systematic_inner g cid n minx miny xs ys js i plots self))
    = SamplePlotGenerator.random_calls self.
Proof.
  induction js as [|j js IH]; intros plots self;
    cbn [SamplePlotGenerator.systematic_inner]; [reflexivity|].
  destruct (SamplePlotGenerator.enough plots n); [reflexivity|]. cbv zeta.
  destruct (contains g _); [|apply IH].
  unfold SamplePlotGenerator.next_plot_id. rewrite IH. reflexivity.
Qed.

Lemma systematic_outer_draws (g : Geom) (cid : string) (n : Z) (minx miny xs ys : Q)
    (is_ : list Z) (grid_size : Z) :
  forall plots self,
    SamplePlotGenerator.random_calls
      (snd (SamplePlotGenerator.systematic_outer g cid n minx miny xs ys is_ grid_size
              plots self))
    = SamplePlotGenerator.random_calls self.
Proof.
  induction is_ as [|i is_ IH]; intros plots self;
    cbn [SamplePlotGenerator.systematic_outer]; [reflexivity|].
  pose proof (systematic_inner_draws g cid n minx miny xs ys
                (SamplePlotGenerator.range grid_size) i plots self) as Hin.
  destruct (SamplePlotGenerator.systematic_inner _ _ _ _ _ _ _ _ _ _ _)
    as [plots1 self1]. cbn [snd] in Hin.
  destruct (SamplePlotGenerator.enough plots1 n); [exact Hin|].
  rewrite IH. exact Hin.
Qed.

Lemma for_each_row_systematic (r1 r2 : nat -> Q) (intensity : Q) (minimum : Z)
    (rows : list SamplePlotGenerator.Row) :
  forall idx acc self plots self',
    SamplePlotGenerator.for_each_row r1 rows idx intensity minimum "systematic" acc self
    = Ok (plots, self') ->
    SamplePlotGenerator.random_calls self' = SamplePlotGenerator.random_calls self
    /\ SamplePlotGenerator.for_each_row r2 rows idx intensity minimum "systematic" acc self
       = Ok (plots, self').
Proof.
  induction rows as [|row rows IH]; intros idx acc self plots self' H;
    cbn [SamplePlotGenerator.for_each_row] in *.
  - inversion H; subst. split; reflexivity.
  - unfold SamplePlotGenerator._generate_plots_for_compartment in *.
    cbn [String.eqb Ascii.eqb Bool.eqb] in *. cbv iota beta in *.
    destruct (SamplePlotGenerator._generate_systematic_plots _ _ _ _)
      as [[plots1 self1]|e] eqn:E; [|discriminate].
    apply IH in H as [Hc H]. split; [|exact H]. rewrite Hc.
    unfold SamplePlotGenerator._generate_systematic_plots in E.
    destruct (bounds _) as [[[minx miny] maxx] maxy].
    destruct (_ <? 0)%Z; [discriminate|]. injection E as E'.
    match type of E' with
    | SamplePlotGenerator.systematic_outer ?g ?cid ?n ?mx ?my ?xs ?ys ?is_ ?gs ?pl ?sf = _ =>
      pose proof (systematic_outer_draws g cid n mx my xs ys is_ gs pl sf) as Hd
    end.
    rewrite E' in Hd. exact Hd.
Qed.

(** X15: systematic sampling draws no random number and does not depend on
    the random source: with any other source the same request gives the
    same plots. *)
Theorem systematic_sampling_reproducible (r1 r2 : nat -> Q)
    (gdf : list SamplePlotGenerator.Row) (intensity : Q) (minimum : Z)
    (self : SamplePlotGenerator.Self) (plots : list SamplePlotGenerator.Plot)
    (self' : SamplePlotGenerator.Self) :
  SamplePlotGenerator.generate_sample_plots r1 gdf intensity minimum "systematic" self
  = Ok (plots, self') ->
  SamplePlotGenerator.random_calls self' = SamplePlotGenerator.random_calls self
  /\ SamplePlotGenerator.generate_sample_plots r2 gdf intensity minimum "systematic" self
     = Ok (plots, self').
Proof.
  intro H. apply SamplePlotFacts.generate_sample_plots_ok in H as (Hne & Hpl & E).
  apply (for_each_row_systematic r1 r2) in E as [Hc E].
  split; [exact Hc|]. apply SamplePlotFacts.generate_sample_plots_ok. auto.
Qed.

End WithGeometry.
End WholeFacts.

(** ** The endpoints *)

Module EndpointFacts.
Section WithGeometry.
Context {G : Geometry}.
Variable np_sqrt : Q -> Q.
Variable random_random : nat -> Q.
Variable falsy : GeoJSON -> bool.
Variable read_file : string -> option (list SamplePlotGenerator.Row).

Lemma reraise_raises {A} (prefix : string) (r : Result A) (e : exn) :
  reraise_value_error prefix r = Raise e -> exists msg, e = ValueError msg.
Proof.
  unfold reraise_value_error. destruct r; [discriminate|]. intro H. inversion H. eauto.
Qed.

Lemma failure_of_raised {A B C} (prefix : string) (r : Result C) (e : exn) :
  reraise_value_error prefix r = Raise e ->
  Main.status (@Main.failure_of A B e) = 400%Z.
Proof.
  intro H. apply reraise_raises in H as [msg ->]. reflexivity.
Qed.

Lemma compartments_endpoint_ok (data : Main.CompartmentRequest)
    (aid : option string) (frame : list CompartmentGenerator.GdfRow)
    (st : CompartmentStatistics.Stats) :
  Main.generate_compartments np_sqrt falsy data = Main.Success aid frame st ->
  exists b, Main.boundaryGeometry data = Some b /\ falsy b = false
    /\ CompartmentGenerator.generate_compartments b (requested_compartments data) = Ok frame
    /\ CompartmentStatistics.get_compartment_statistics np_sqrt frame = Ok st
    /\ aid = Main.compartment_analysisId data.
Proof.
  unfold Main.generate_compartments, requested_compartments.
  destruct (Main.boundaryGeometry data) as [b|]; [|discriminate].
  destruct (falsy b) eqn:Ef; [discriminate|].
  destruct (CompartmentGenerator.generate_compartments b _) as [frame0|e] eqn:Eg;
    [|destruct e; discriminate].
  destruct (CompartmentStatistics.get_compartment_statistics np_sqrt frame0)
    as [st0|e] eqn:Es; [|destruct e; discriminate].
  intro H. inversion H; subst. exists b. auto.
Qed.

Lemma compartments_endpoint_status (data : Main.CompartmentRequest) :
  (exists aid frame st,
     Main.generate_compartments np_sqrt falsy data = Main.Success aid frame st)
  \/ Main.status (Main.generate_compartments np_sqrt falsy data) = 400%Z.
Proof.
  unfold Main.generate_compartments.
  destruct (Main.boundaryGeometry data) as [b|]; [|now right].
  destruct (falsy b); [now right|].
  destruct (CompartmentGenerator.generate_compartments b _) as [frame0|e] eqn:Eg.
  - destruct (CompartmentStatistics.get_compartment_statistics np_sqrt frame0)
      as [st0|e] eqn:Es; [left; eauto|right].
    now apply (failure_of_raised _ _ _ Es).
  - right. now apply (failure_of_raised _ _ _ Eg).
Qed.

Lemma frame_count (b : GeoJSON) (n : Z) (frame : list CompartmentGenerator.GdfRow)
    (st : CompartmentStatistics.Stats) :
  CompartmentGenerator.generate_compartments b n = Ok frame ->
  CompartmentStatistics.get_compartment_statistics np_sqrt frame = Ok st ->
  (1 <= Z.of_nat (List.length frame) <= n)%Z
  /\ CompartmentStatistics.num_compartments st = List.length frame.
Proof.
  intros Hg Hs.
  apply CompartmentStatisticsFacts.statistics_ok in Hs as (a & rest & E & ->).
  cbn [CompartmentStatistics.num_compartments].
  assert (H1 : (1 <= List.length frame)%nat).
  { rewrite <- (length_map (fun r => area (CompartmentGenerator.row_geometry r)) frame), E.
    cbn [List.length]. lia. }
  apply CompartmentFacts.generate_compartments_ok in Hg as (g & _ & _ & _ & Hf).
  assert (H2 : (Z.of_nat (List.length frame) <= Z.max 0 n)%Z).
  { rewrite Hf. unfold CompartmentGenerator._create_compartment_geodataframe.
    rewrite length_map.
    apply (BisectionFacts.bisection_fuel_count n (area g / inject_Z n) 12 g [] 0).
    - cbn. lia.
    - apply CompartmentFacts.bisection_total. }
  split; [lia|reflexivity].
Qed.


(** X17: a request for compartments is answered 400 when [boundaryGeometry]
    is missing or empty, when no valid polygon can be built from it, and
    when [numCompartments] is 0 or negative. *)
Theorem compartments_endpoint_rejects (data : Main.CompartmentRequest) :
  Main.boundaryGeometry data = None
  \/ (exists b, Main.boundaryGeometry data = Some b
                /\ (falsy b = true \/ shape b = None
                    \/ exists g, shape b = Some g /\ is_valid g = false))
  \/ (requested_compartments data <= 0)%Z ->
  Main.status (Main.generate_compartments np_sqrt falsy data) = 400%Z.
Proof.
  intro H. destruct (compartments_endpoint_status data) as [(aid & frame & st & E)|E];
    [|exact E].
  exfalso. apply compartments_endpoint_ok in E as (b & Hb & Hf & Hg & Hs & _).
  destruct (frame_count b _ frame st Hg Hs) as [Hc _].
  apply CompartmentFacts.generate_compartments_ok in Hg as (g & Hshape & Hv & _ & _).
  destruct H as [H|[(b' & Hb' & H)|H]].
  - congruence.
  - assert (b' = b) by congruence. subst b'.
    destruct H as [H|[H|(g' & H & Hv')]]; congruence.
  - lia.
Qed.

Lemma sample_endpoint_ok (data : Main.SamplePlotRequest) (calls : nat)
    (aid : option string) (plots : list SamplePlotGenerator.Plot)
    (st : SamplePlotStatistics.Stats) :
  Main.generate_sample_plots random_random read_file data calls
  = Main.Success aid plots st ->
  exists path gdf,
    Main.compartmentGeometryPath data = Some path /\ path <> ""
    /\ read_file path = Some gdf /\ gdf <> []
    /\ Forall (owned gdf 0) plots
    /\ map SamplePlotGenerator.plot_id plots = plot_ids_from 0 (List.length plots)
    /\ SamplePlotStatistics.get_sample_plot_statistics plots = Ok st
    /\ aid = Main.sample_analysisId data.
Proof.
  unfold Main.generate_sample_plots.
  destruct (Main.compartmentGeometryPath data) as [path|]; [|discriminate].
  destruct path as [|c path]; [discriminate|].
  destruct (read_file (String c path)) as [gdf|] eqn:Er; [|discriminate].
  destruct (SamplePlotGenerator.generate_sample_plots _ _ _ _ _ _)
    as [[plots0 self0]|e] eqn:E; [|destruct e; discriminate].
  destruct (SamplePlotStatistics.get_sample_plot_statistics plots0) as [st0|e] eqn:Es;
    [|destruct e; discriminate].
  intro H. inversion H; subst. exists (String c path), gdf.
  assert (Hne : gdf <> []).
  { intros ->. unfold SamplePlotGenerator.generate_sample_plots in E. discriminate. }
  apply SamplePlotFacts.generate_sample_plots_numbered in E as (Hid & _ & Hown).
  split; [reflexivity|]. split; [discriminate|]. split; [exact Er|].
  split; [exact Hne|]. split; [exact Hown|]. split; [exact Hid|].
  split; [exact Es|reflexivity].
Qed.

Lemma sample_endpoint_status (data : Main.SamplePlotRequest) (calls : nat) :
  (exists aid plots st,
     Main.generate_sample_plots random_random read_file data calls
     = Main.Success aid plots st)
  \/ Main.status (Main.generate_sample_plots random_random read_file data calls)
     = 400%Z.
Proof.
  unfold Main.generate_sample_plots.
  destruct (Main.compartmentGeometryPath data) as [path|]; [|now right].
  destruct path as [|c path]; [now right|].
  destruct (read_file (String c path)) as [gdf|]; [|now right].
  destruct (SamplePlotGenerator.generate_sample_plots _ _ _ _ _ _)
    as [[plots0 self0]|e] eqn:E; [|right; now apply (failure_of_raised _ _ _ E)].
  destruct (SamplePlotStatistics.get_sample_plot_statistics plots0) as [st0|e] eqn:Es;
    [left; eauto|right].
  now apply (failure_of_raised _ _ _ Es).
Qed.

(** X18: in a request for sample plots that is answered 200, [total_plots]
    is the number of plots, the plots are SP-01, SP-02, ... in order, and
    every compartment listed in [plots_per_compartment] is a row of the
    compartment file read. *)
Theorem sample_plots_endpoint_success (data : Main.SamplePlotRequest) (calls : nat)
    (aid : option string) (plots : list SamplePlotGenerator.Plot)
    (st : SamplePlotStatistics.Stats) :
  Main.generate_sample_plots random_random read_file data calls
  = Main.Success aid plots st ->
  SamplePlotStatistics.total_plots st = List.length plots
  /\ map SamplePlotGenerator.plot_id plots = plot_ids_from 0 (List.length plots)
  /\ exists path gdf,
       Main.compartmentGeometryPath data = Some path /\ read_file path = Some gdf
       /\ forall id c, In (id, c) (SamplePlotStatistics.plots_per_compartment st) ->
            exists idx row, nth_error gdf idx = Some row /\ id = owner_id row idx.
Proof.
  intro H. apply sample_endpoint_ok in H
    as (path & gdf & Hp & _ & Hr & _ & Hown & Hid & Hst & _).
  pose proof (SamplePlotStatisticsFacts.sample_statistics_ok plots st Hst) as Hne.
  rewrite (SamplePlotStatisticsFacts.sample_statistics_value plots Hne) in Hst.
  cbv zeta in Hst. injection Hst as <-.
  split; [reflexivity|]. split; [exact Hid|]. exists path, gdf.
  split; [exact Hp|]. split; [exact Hr|]. intros id c Hin.
  cbn [SamplePlotStatistics.plots_per_compartment] in Hin.
  destruct (SamplePlotStatisticsFacts.statistics_groups plots) as (Hs & Hpos & Hc & _ & _).
  pose proof (SamplePlotStatisticsFacts.count_for_in _ id c Hs Hin) as Hcount.
  unfold counts_positive in Hpos. rewrite Forall_forall in Hpos.
  specialize (Hpos _ Hin). cbn [snd] in Hpos.
  rewrite Hc in Hcount. unfold plots_in in Hcount.
  destruct (filter _ plots) as [|pl rest] eqn:Ef; [cbn in Hcount; lia|].
  assert (Hpl : In pl (filter (fun p => String.eqb (SamplePlotGenerator.compartment_id p) id)
                              plots)) by (rewrite Ef; now left).
  apply filter_In in Hpl as [Hpl Heq]. apply String.eqb_eq in Heq.
  rewrite Forall_forall in Hown. destruct (Hown pl Hpl) as (k & row & Hk & Hcid & _).
  exists k, row. split; [exact Hk|]. rewrite <- Heq. exact Hcid.
Qed.

(** X19: a request for sample plots is answered 400 when
    [compartmentGeometryPath] is missing or empty, when the compartment
    file cannot be read, and when it has no rows. *)
Theorem sample_plots_endpoint_rejects (data : Main.SamplePlotRequest) (calls : nat) :
  Main.compartmentGeometryPath data = None
  \/ Main.compartmentGeometryPath data = Some ""
  \/ (exists path, Main.compartmentGeometryPath data = Some path
                   /\ (read_file path = None \/ read_file path = Some [])) ->
  Main.status (Main.generate_sample_plots random_random read_file data calls) = 400%Z.
Proof.
  intro H. destruct (sample_endpoint_status data calls) as [(aid & plots & st & E)|E];
    [|exact E].
  exfalso. apply sample_endpoint_ok in E as (path & gdf & Hp & Hne & Hr & Hg & _).
  destruct H as [H|[H|(path' & Hp' & H)]].
  - congruence.
  - congruence.
  - assert (path' = path) by congruence. subst path'. destruct H; congruence.
Qed.

End WithGeometry.
End EndpointFacts.

(** ** The further properties on concrete runs *)

Module ExtraRuns.
Import Planar Examples MoreExamples.

(** The square cut in four holds three compartments. *)
Lemma compartment_count_bounded_square :
  @CompartmentGenerator.generate_compartments planar square 4 = Ok square_4
  /\ (Z.of_nat (List.length square_4) <= Z.max 0 4)%Z.
Proof.
  split; [reflexivity|].
  apply (@BisectionFacts.compartment_count_bounded planar square 4 square_4).
  reflexivity.
Defined.

(** Each of the three compartments of the square has a positive area. *)
Lemma compartments_have_area_square :
  @CompartmentGenerator.generate_compartments planar square 4 = Ok square_4
  /\ forall row, In row square_4 ->
       @shape planar square = Some (CompartmentGenerator.row_geometry row)
       \/ 0 < CompartmentGenerator.row_area row.
Proof.
  split; [reflexivity|].
  apply (@BisectionFacts.compartments_have_area planar square 4 square_4).
  reflexivity.
Defined.

(** The sliver lies inside its cutting ring: it is not cut, and is the only
    compartment. *)
Lemma uncut_sliver_accepted_whole :
  (0 < 2)%Z /\ 0 < @area planar sliver /\ @uncut planar sliver 0.001
  /\ @CompartmentGenerator._recursive_bisection planar sliver 2 0.001 = [(sliver, "C1")].
Proof.
  assert (Hcut : @uncut planar sliver 0.001).
  { intros line H.
    change (@CompartmentGenerator._find_bisecting_line planar sliver 0.001)
      with (Some sliver_line) in H.
    injection H as <-.
    change (@split planar sliver sliver_line) with (Some [sliver]). exact I. }
  assert (Hpos : 0 < @area planar sliver) by exact (@eq_refl comparison Lt).
  split; [lia|]. split; [exact Hpos|]. split; [exact Hcut|].
  apply (@BisectionFacts.uncut_polygon_accepted_whole planar sliver 2 0.001);
    [lia|exact Hpos|exact Hcut].
Defined.

(** With intensity -10 and minimum -5 the first box is owed -2 plots: the
    systematic request fails. *)
Lemma systematic_request_fails_negative :
  Exists (fun row =>
            (SamplePlotGenerator.planned_plots
               (@area planar (SamplePlotGenerator.row_geometry row)) (-10) (-5) < 0)%Z)
         first_box
  /\ exists msg,
       @SamplePlotGenerator.generate_sample_plots planar draws first_box (-10) (-5)
         "systematic" fresh
       = Raise (ValueError msg).
Proof.
  assert (H : Exists (fun row =>
            (SamplePlotGenerator.planned_plots
               (@area planar (SamplePlotGenerator.row_geometry row)) (-10) (-5) < 0)%Z)
         first_box).
  { apply Exists_cons_hd. exact (@eq_refl comparison Lt). }
  split; [exact H|].
  apply (@SamplingFacts.systematic_request_fails planar draws first_box (-10) (-5) fresh).
  right. exact H.
Defined.

(** The first five attempts in the 50 x 50 compartment all hit: five plots
    from ten draws. *)
Lemma random_placer_all_hit_box :
  (0 <= 5)%Z
  /\ (forall t, (t < Z.to_nat 5)%nat ->
        @contains planar box_50
          (attempt_point draws box_50 (SamplePlotGenerator.random_calls fresh) t) = true)
  /\ Z.of_nat (List.length
                 (fst (@SamplePlotGenerator._generate_random_plots planar draws box_50
                         "C1" 5 fresh))) = 5%Z
  /\ SamplePlotGenerator.random_calls
       (snd (@SamplePlotGenerator._generate_random_plots planar draws box_50 "C1" 5 fresh))
     = (SamplePlotGenerator.random_calls fresh + 2 * Z.to_nat 5)%nat.
Proof.
  assert (Hhit : forall t, (t < Z.to_nat 5)%nat ->
            @contains planar box_50
              (attempt_point draws box_50 (SamplePlotGenerator.random_calls fresh) t)
            = true).
  { intros t Ht. change (Z.to_nat 5) with 5%nat in Ht.
    do 5 (destruct t as [|t]; [reflexivity|]). lia. }
  split; [lia|]. split; [exact Hhit|].
  apply (@SamplingFacts.random_placer_all_hit planar draws box_50 "C1" 5 fresh);
    [lia|exact Hhit].
Defined.

(** The ten plots of the two boxes have their point at (longitude,
    latitude). *)
Lemma plot_coordinates_agree_two_boxes :
  @SamplePlotGenerator.generate_sample_plots planar draws two_boxes 0.02 5 "systematic"
     fresh
  = Ok two_boxes_systematic
  /\ Forall coordinates_agree (fst two_boxes_systematic).
Proof.
  split; [reflexivity|].
  apply (@SamplingFacts.plot_coordinates_agree planar draws two_boxes 0.02 5
           "systematic" fresh (fst two_boxes_systematic) (snd two_boxes_systematic)).
  reflexivity.
Defined.

(** The plots of the two boxes begin with the plots of the first box
    alone. *)
Lemma appended_rows_extend_plots_two_boxes :
  @SamplePlotGenerator.generate_sample_plots planar draws first_box 0.02 5 "systematic"
     fresh
  = Ok first_box_systematic
  /\ @SamplePlotGenerator.generate_sample_plots planar draws (first_box ++ second_box)
       0.02 5 "systematic" fresh
     = Ok two_boxes_systematic
  /\ exists new,
       fst two_boxes_systematic = (fst first_box_systematic ++ new)%list
       /\ map SamplePlotGenerator.plot_id new
          = plot_ids_from (List.length (fst first_box_systematic)) (List.length new).
Proof.
  split; [reflexivity|]. split; [reflexivity|].
  apply (@SamplingFacts.appended_rows_extend_plots planar draws first_box second_box
           0.02 5 "systematic" fresh (fst first_box_systematic)
           (snd first_box_systematic) (fst two_boxes_systematic)
           (snd two_boxes_systematic)); reflexivity.
Defined.

(** A count of -3 at random: no plot, no draw. *)
Lemma no_plot_owed_negative :
  (-3 <= 0)%Z /\ ("random" = "systematic" -> (-3)%Z = 0%Z)
  /\ @SamplePlotGenerator._generate_plots_for_compartment planar draws box_50 "C1" (-3)
       "random" fresh
     = Ok ([], fresh).
Proof.
  assert (H : "random" = "systematic" -> (-3)%Z = 0%Z) by discriminate.
  split; [lia|]. split; [exact H|].
  apply (@SamplingFacts.no_plot_owed planar draws box_50 "C1" (-3) "random" fresh);
    [lia|exact H].
Defined.

(** The statistics of an empty frame fail. *)
Lemma compartment_statistics_empty_frame :
  exists msg,
    @CompartmentStatistics.get_compartment_statistics planar newton_sqrt []
    = Raise (ValueError msg).
Proof.
  apply (proj1 (@CompartmentStatisticsFacts.compartment_statistics_empty planar
                  newton_sqrt [])).
  reflexivity.
Defined.

(** The statistics of the three compartments of the square. *)
Lemma compartment_statistics_order_square :
  @CompartmentStatistics.get_compartment_statistics planar newton_sqrt square_4
  = Ok square_4_statistics
  /\ In (CompartmentStatistics.min_area square_4_statistics)
        (map (fun r => @area planar (CompartmentGenerator.row_geometry r)) square_4)
  /\ In (CompartmentStatistics.max_area square_4_statistics)
        (map (fun r => @area planar (CompartmentGenerator.row_geometry r)) square_4)
  /\ (forall row, In row square_4 ->
        CompartmentStatistics.min_area square_4_statistics
        <= @area planar (CompartmentGenerator.row_geometry row)
        <= CompartmentStatistics.max_area square_4_statistics)
  /\ CompartmentStatistics.min_area square_4_statistics
     <= CompartmentStatistics.mean_area square_4_statistics
     <= CompartmentStatistics.max_area square_4_statistics
  /\ CompartmentStatistics.total_area square_4_statistics
     == inject_Z (Z.of_nat (CompartmentStatistics.num_compartments square_4_statistics))
        * CompartmentStatistics.mean_area square_4_statistics.
Proof.
  split; [reflexivity|].
  apply (@CompartmentStatisticsFacts.compartment_statistics_order planar newton_sqrt
           square_4 square_4_statistics).
  reflexivity.
Defined.

(** The variance of the three compartments of the square. *)
Lemma compartment_variance_zero_square :
  @CompartmentStatistics.get_compartment_statistics planar newton_sqrt square_4
  = Ok square_4_statistics
  /\ 0 <= CompartmentStatistics.area_variance square_4_statistics
  /\ (CompartmentStatistics.area_variance square_4_statistics == 0 <->
      forall row, In row square_4 ->
        @area planar (CompartmentGenerator.row_geometry row)
        == CompartmentStatistics.mean_area square_4_statistics).
Proof.
  split; [reflexivity|].
  apply (@CompartmentStatisticsFacts.compartment_variance_zero planar newton_sqrt
           square_4 square_4_statistics).
  reflexivity.
Defined.



(** The square, one compartment requested: the square itself. *)
Lemma single_compartment_is_square :
  @shape planar square = Some square_polygon
  /\ @is_valid planar square_polygon = true
  /\ 0 < @area planar square_polygon
  /\ @CompartmentGenerator.generate_compartments planar square 1
     = Ok [{| CompartmentGenerator.row_compartment_id := "C1";
              CompartmentGenerator.row_area := @area planar square_polygon;
              CompartmentGenerator.row_geometry := square_polygon |}].
Proof.
  assert (Hpos : 0 < @area planar square_polygon) by exact (@eq_refl comparison Lt).
  split; [reflexivity|]. split; [reflexivity|]. split; [exact Hpos|].
  apply (@WholeFacts.single_compartment_is_boundary planar square square_polygon);
    [reflexivity|reflexivity|exact Hpos].
Defined.

(** The plots of the two boxes on the grid are the same whatever is drawn,
    and nothing is drawn. *)
Lemma systematic_sampling_reproducible_two_boxes :
  @SamplePlotGenerator.generate_sample_plots planar draws two_boxes 0.02 5 "systematic"
     fresh
  = Ok two_boxes_systematic
  /\ SamplePlotGenerator.random_calls (snd two_boxes_systematic)
     = SamplePlotGenerator.random_calls fresh
  /\ @SamplePlotGenerator.generate_sample_plots planar high_draws two_boxes 0.02 5
       "systematic" fresh
     = Ok (fst two_boxes_systematic, snd two_boxes_systematic).
Proof.
  split; [reflexivity|].
  apply (@WholeFacts.systematic_sampling_reproducible planar draws high_draws two_boxes
           0.02 5 fresh (fst two_boxes_systematic) (snd two_boxes_systematic)).
  reflexivity.
Defined.


(** The square with -1 compartments requested: 400. *)
Lemma compartments_endpoint_rejects_negative :
  (requested_compartments (compartment_request (Some (-1)%Z)) <= 0)%Z
  /\ Main.status (@Main.generate_compartments planar newton_sqrt ring_is_empty
                    (compartment_request (Some (-1)%Z))) = 400%Z.
Proof.
  assert (H : (requested_compartments (compartment_request (Some (-1)%Z)) <= 0)%Z).
  { apply Z.leb_le. reflexivity. }
  split; [exact H|].
  apply (@EndpointFacts.compartments_endpoint_rejects planar newton_sqrt ring_is_empty
           (compartment_request (Some (-1)%Z))).
  right. right. exact H.
Defined.

(** The file of the two boxes with no parameter given: ten plots, five in
    each compartment. *)
Lemma sample_plots_endpoint_success_two_boxes :
  @Main.generate_sample_plots planar draws files
     (sample_request (Some "compartments.geojson")) 0
  = Main.Success None (fst two_boxes_systematic) two_boxes_statistics
  /\ SamplePlotStatistics.total_plots two_boxes_statistics
     = List.length (fst two_boxes_systematic)
  /\ map SamplePlotGenerator.plot_id (fst two_boxes_systematic)
     = plot_ids_from 0 (List.length (fst two_boxes_systematic))
  /\ exists path gdf,
       Main.compartmentGeometryPath (sample_request (Some "compartments.geojson"))
       = Some path
       /\ files path = Some gdf
       /\ forall id c,
            In (id, c) (SamplePlotStatistics.plots_per_compartment two_boxes_statistics) ->
            exists idx row, nth_error gdf idx = Some row /\ id = owner_id row idx.
Proof.
  split; [reflexivity|].
  apply (@EndpointFacts.sample_plots_endpoint_success planar draws files
           (sample_request (Some "compartments.geojson")) 0 None
           (fst two_boxes_systematic) two_boxes_statistics).
  reflexivity.
Defined.

(** A file without rows: 400. *)
Lemma sample_plots_endpoint_rejects_empty_file :
  (exists path, Main.compartmentGeometryPath (sample_request (Some "empty.geojson"))
                = Some path
                /\ (files path = None \/ files path = Some []))
  /\ Main.status (@Main.generate_sample_plots planar draws files
                    (sample_request (Some "empty.geojson")) 0) = 400%Z.
Proof.
  assert (H : exists path,
            Main.compartmentGeometryPath (sample_request (Some "empty.geojson"))
            = Some path
            /\ (files path = None \/ files path = Some [])).
  { exists "empty.geojson". split; [reflexivity|]. right. reflexivity. }
  split; [exact H|].
  apply (@EndpointFacts.sample_plots_endpoint_rejects planar draws files
           (sample_request (Some "empty.geojson")) 0).
  right. right. exact H.
Defined.

End ExtraRuns.
